(** * generate_slippers.py: bump placement on a scanned shoe sole

    A shallow embedding of [generate_slippers.py].  Lengths and pixel
    coordinates (numpy float64 in the source) are modelled as exact
    rationals [Q]; the dome geometry, which needs [cos] and [sin], is
    modelled over the reals [R] in module [Dome].  The matplotlib
    point-in-polygon test [Path.contains_point] and trimesh's ray query
    [mesh.ray.intersects_location] are library code: the first is a
    Section variable, the second a field of the [mesh] record. *)

From Stdlib Require Import QArith Qminmax Qround Lia List Bool String Ascii.
From Stdlib Require Import Reals Lra Lqa.
From stdpp Require Import base gmap strings.
Import ListNotations.

Open Scope Q_scope.

(** ** Data model *)

Definition point2 : Type := (Q * Q)%type.
Definition point3 : Type := (Q * Q * Q)%type.

Definition px (p : point3) : Q := fst (fst p).
Definition py (p : point3) : Q := snd (fst p).
Definition pz (p : point3) : Q := snd p.

(** A COCO category: [{"id": ..., "name": ...}]. *)
Record category := mk_category { cat_id : Z; cat_name : string }.

(** A COCO annotation: [{"id", "category_id", "segmentation"}];
    [segmentation] is a list of flat coordinate lists. *)
Record annotation := mk_annotation {
  ann_id : Z;
  category_id : Z;
  segmentation : list (list Q)
}.

(** The parsed annotation document [coco_data]; [images[0]] carries the
    width and height. *)
Record coco := mk_coco {
  img_width : Q;
  img_height : Q;
  categories : list category;
  annotations : list annotation
}.

(** The sole mesh as the pipeline queries it: its axis-aligned bounds
    ([mesh.bounds]) and trimesh's [mesh.ray.intersects_location] for a
    single ray (origin, direction), returning every hit location. *)
Record mesh := mk_mesh {
  bounds_min : point3;
  bounds_max : point3;
  intersects_location : point3 -> point3 -> list point3
}.

(** ** Python string helpers *)

(** [str.lower] on ASCII letters. *)
Definition lower_ascii (c : ascii) : ascii :=
  let n := nat_of_ascii c in
  if (65 <=? n)%nat && (n <=? 90)%nat then ascii_of_nat (n + 32) else c.

Fixpoint lower (s : string) : string :=
  match s with
  | EmptyString => EmptyString
  | String c s' => String (lower_ascii c) (lower s')
  end.

(** ** numpy helpers *)

(** [np.arange(start, stop, step)]: numpy computes the length
    [ceil((stop - start) / step)] (0 when negative) and fills element [i]
    with [start + i * step]. *)
Definition arange_len (start stop step : Q) : nat :=
  Z.to_nat (Qceiling ((stop - start) / step)).

Definition arange (start stop step : Q) : list Q :=
  map (fun i => start + inject_Z (Z.of_nat i) * step)
      (seq 0 (arange_len start stop step)).

(** [np.array(flat).reshape(-1, 2)]: raises on an odd length. *)
Fixpoint reshape_pairs (flat : list Q) : option (list point2) :=
  match flat with
  | [] => Some []
  | [_] => None
  | x :: y :: rest =>
      match reshape_pairs rest with
      | Some ps => Some ((x, y) :: ps)
      | None => None
      end
  end.

(** [np.min(seg, axis=0)] and [np.max(seg, axis=0)]: raise on an empty
    array; otherwise [(min_x, min_y, max_x, max_y)]. *)
Definition seg_bbox (seg : list point2) : option (Q * Q * Q * Q) :=
  match seg with
  | [] => None
  | (x0, y0) :: rest =>
      Some (fold_left (fun '(a, b, c, d) '(x, y) =>
              (Qmin a x, Qmin b y, Qmax c x, Qmax d y)) rest (x0, y0, x0, y0))
  end.

(** Python's [max] over a non-empty sequence: keeps the first maximum
    ([if item > maxval]). *)
Definition py_max (x : Q) (xs : list Q) : Q :=
  fold_left (fun acc y => if Qlt_le_dec acc y then y else acc) xs x.

(** [np.argmax]: index of the first maximum. *)
Fixpoint argmax_aux (xs : list Q) (i best : nat) (bv : Q) : nat :=
  match xs with
  | [] => best
  | y :: ys => if Qlt_le_dec bv y then argmax_aux ys (S i) i y
               else argmax_aux ys (S i) best bv
  end.

Definition np_argmax (xs : list Q) : nat :=
  match xs with
  | [] => 0%nat
  | x :: rest => argmax_aux rest 1 0 x
  end.

(** ** Coordinate mapping (lines 71-80) *)

Record mapper := mk_mapper {
  origin_x : Q; origin_y : Q; x_scale : Q; y_scale : Q; m_img_height : Q
}.

Definition make_mapper (m : mesh) (c : coco) : mapper :=
  mk_mapper (px (bounds_min m) + 10) (py (bounds_min m) + 10)
            ((px (bounds_max m) - px (bounds_min m)) / img_width c)
            ((py (bounds_max m) - py (bounds_min m)) / img_height c)
            (img_height c).

Definition map_2d_to_3d (cm : mapper) (x y : Q) : Q * Q :=
  (origin_x cm + x * x_scale cm, origin_y cm + (m_img_height cm - y) * y_scale cm).

(** The inverse re-projection of the mapping-accuracy metric (lines
    238-239). *)
Definition reproject (cm : mapper) (loc : point3) : Q * Q :=
  ((px loc - origin_x cm) / x_scale cm,
   m_img_height cm - (py loc - origin_y cm) / y_scale cm).

(** ** Parameters (lines 101-104) *)

Definition bump_radius : Q := 25 # 10.
Definition bump_height : Q := 4.
Definition step : Q := 5.

(** ** Zone colours (lines 107-139) *)

Definition zone_color_map : list (string * list Z) := [
  ("adrenal_gland", [255; 165; 0; 255]); ("appendix", [139; 69; 19; 255]);
  ("ascending_colon", [153; 102; 51; 255]); ("bladder", [255; 215; 0; 255]);
  ("brain_stem", [128; 0; 128; 255]); ("descending_colon", [139; 69; 19; 255]);
  ("duodenum", [210; 105; 30; 255]); ("ear", [255; 192; 203; 255]);
  ("eye", [0; 191; 255; 255]); ("gall_bladder", [50; 205; 50; 255]);
  ("head_brain", [147; 112; 219; 255]); ("heart", [255; 0; 0; 255]);
  ("anus", [139; 0; 0; 255]); ("kidney", [205; 92; 92; 255]);
  ("liver", [165; 42; 42; 255]); ("lungs", [135; 206; 235; 255]);
  ("neck", [255; 228; 196; 255]); ("pancreas", [255; 140; 0; 255]);
  ("pituitary_gland", [255; 105; 180; 255]); ("rectum", [128; 0; 0; 255]);
  ("sex_gland", [199; 21; 133; 255]); ("sinus", [173; 216; 230; 255]);
  ("small_intestine", [244; 164; 96; 255]); ("solar_plexus", [255; 255; 0; 255]);
  ("spleen", [220; 20; 60; 255]); ("stomach", [240; 128; 128; 255]);
  ("thyroid", [0; 128; 128; 255]); ("trapezoid", [238; 130; 238; 255]);
  ("transverse_colon", [160; 82; 45; 255]); ("ureter", [218; 165; 32; 255]);
  ("default", [128; 128; 128; 255])]%Z.

Fixpoint assoc_get {V} (k : string) (l : list (string * V)) : option V :=
  match l with
  | [] => None
  | (k', v) :: l' => if String.eqb k k' then Some v else assoc_get k l'
  end.

(** [zone_color_map.get(zone_name, zone_color_map["default"])] *)
Definition zone_color (zone_name : string) : list Z :=
  match assoc_get zone_name zone_color_map with
  | Some c => c
  | None => [128; 128; 128; 255]%Z
  end.

(** ** Zone selection (lines 54-68) *)

(** [zone_name_to_ids]: lower-cased category name to the list of its ids. *)
Definition zone_name_to_ids_of (cats : list category) : gmap string (list Z) :=
  fold_left (fun acc cat =>
      let name := lower (cat_name cat) in
      let ids := default [] (acc !! name) in
      <[name := ids ++ [cat_id cat]]> acc) cats ∅.

(** The loop over [selected_zones]: the [selected_ids] it collects and the
    names it warns about, in order. *)
Definition resolve_selected (zn : gmap string (list Z)) (selected_zones : list string)
    : list Z * list string :=
  fold_left (fun '(ids, warns) zone =>
      match zn !! zone with
      | Some l => (ids ++ l, warns)
      | None => (ids, warns ++ [zone])
      end) selected_zones ([], []).

(** ** Run state (lines 142-150) *)

Record bump := mk_bump {
  bump_rx : Q; bump_ry : Q; bump_rz : Q;
  bump_translation : point3;
  bump_color : list Z
}.

(** [spikes] holds the sole model followed by every bump. *)
Inductive piece := SolePiece | BumpPiece (b : bump).

(** Python dict assignment [d[k] = v]: an existing key keeps its
    position, a new key goes last. *)
Fixpoint dict_set {V} (k : string) (v : V) (d : list (string * V)) : list (string * V) :=
  match d with
  | [] => [(k, v)]
  | (k', v') :: d' => if String.eqb k k' then (k, v) :: d' else (k', v') :: dict_set k v d'
  end.

(** [rays_cast] is ghost state: the origin of every ray cast, in order. *)
Record state := mk_state {
  spikes : list piece;
  spike_count : nat;
  ray_casting_attempts : nat;
  ray_casting_successes : nat;
  bump_locations : list point3;
  zone_bumps : gmap string nat;
  zone_paths : list (string * list point2);
  rays_cast : list point3
}.

Definition init_state (zn : gmap string (list Z)) : state :=
  mk_state [SolePiece] 0 0 0 [] ((fun _ => 0%nat) <$> zn) [] [].

Definition cast_ray (origin : point3) (st : state) : state :=
  mk_state (spikes st) (spike_count st) (S (ray_casting_attempts st))
    (ray_casting_successes st) (bump_locations st) (zone_bumps st) (zone_paths st)
    (rays_cast st ++ [origin]).

Definition ray_hit (st : state) : state :=
  mk_state (spikes st) (spike_count st) (ray_casting_attempts st)
    (S (ray_casting_successes st)) (bump_locations st) (zone_bumps st) (zone_paths st)
    (rays_cast st).

(** Lines 198-204: append the bump, count it, record its location. *)
Definition place_bump (zone_name : string) (b : bump) (loc : point3) (st : state) : state :=
  mk_state (spikes st ++ [BumpPiece b]) (S (spike_count st)) (ray_casting_attempts st)
    (ray_casting_successes st) (bump_locations st ++ [loc])
    (<[zone_name := S (default 0%nat (zone_bumps st !! zone_name))]> (zone_bumps st))
    (zone_paths st) (rays_cast st).

Definition set_zone_path (zone_name : string) (path : list point2) (st : state) : state :=
  mk_state (spikes st) (spike_count st) (ray_casting_attempts st)
    (ray_casting_successes st) (bump_locations st) (zone_bumps st)
    (dict_set zone_name path (zone_paths st)) (rays_cast st).

(** Lines 191-192: the z of the highest hit and the hit itself. *)
Definition top_hit (l0 : point3) (ls : list point3) : Q * point3 :=
  let z3d := py_max (pz l0) (map pz ls) in
  let loc := nth (np_argmax (map pz (l0 :: ls))) (l0 :: ls) l0 in
  (z3d, loc).

Definition first_category_name (cats : list category) (cid : Z) : option string :=
  match List.find (fun cat => Z.eqb (cat_id cat) cid) cats with
  | Some cat => Some (lower (cat_name cat))
  | None => None
  end.

(** Python truthiness of a list. *)
Definition nonempty {A} (l : list A) : bool :=
  match l with [] => false | _ => true end.

Section Pipeline.

(** matplotlib's [Path(seg).contains_point((x, y))]. *)
Variable contains_point : list point2 -> point2 -> bool.

(** Lines 181-206: one grid point of a zone. *)
Definition sample_point (m : mesh) (cm : mapper) (zone_name : string) (color : list Z)
    (path : list point2) (st : state) (xi yi : Q) : state :=
  if contains_point path (xi, yi) then
    let '(x3d, y3d) := map_2d_to_3d cm xi yi in
    let origin : point3 := (x3d, y3d, pz (bounds_max m) + 10) in
    let direction : point3 := (0, 0, -1) in
    let st := cast_ray origin st in
    match intersects_location m origin direction with
    | [] => st
    | l0 :: ls =>
        let st := ray_hit st in
        let '(z3d, loc) := top_hit l0 ls in
        let b := mk_bump bump_radius bump_radius bump_height
                   (x3d, y3d, z3d + (1 # 100)) color in
        place_bump zone_name b loc st
    end
  else st.

(** Lines 179-180: the grid over the bounding box, row-major. *)
Definition sample_grid (m : mesh) (cm : mapper) (zone_name : string) (color : list Z)
    (path : list point2) (bb : Q * Q * Q * Q) (st : state) : state :=
  let '(min_x, min_y, max_x, max_y) := bb in
  fold_left (fun st xi =>
      fold_left (fun st yi => sample_point m cm zone_name color path st xi yi)
        (arange min_y max_y step) st)
    (arange min_x max_x step) st.

(** Lines 159-208: the [try] body for one annotation.  A Python
    exception keeps the mutations made before it and moves on to the next
    annotation.  The [valid_points] counter, which only selects a warning,
    and the positional errors, which need a square root, are not
    modelled. *)
Definition annotation_body (c : coco) (m : mesh) (cm : mapper)
    (st : state) (ann : annotation) : state :=
    match first_category_name (categories c) (category_id ann) with
    | None | Some EmptyString => st
    | Some zone_name =>
        let color := zone_color zone_name in
        match segmentation ann with
        | [] => st                                   (* IndexError *)
        | flat :: _ =>
            match reshape_pairs flat with
            | None => st                             (* reshape ValueError *)
            | Some seg =>
                let st := set_zone_path zone_name seg st in
                match seg_bbox seg with
                | None => st                         (* np.min of empty *)
                | Some bb => sample_grid m cm zone_name color seg bb st
                end
            end
        end
    end.

(** Lines 156-158: the category filter, then the body. *)
Definition process_annotation (c : coco) (m : mesh) (cm : mapper)
    (selected_ids : list Z) (st : state) (ann : annotation) : state :=
  if nonempty selected_ids && negb (existsb (Z.eqb (category_id ann)) selected_ids)
  then st
  else annotation_body c m cm st ann.

(** Line 214. *)
Definition success_rate (st : state) : Q :=
  if (0 <? ray_casting_attempts st)%nat
  then inject_Z (Z.of_nat (ray_casting_successes st))
       / inject_Z (Z.of_nat (ray_casting_attempts st)) * 100
  else 0.

(** Lines 234-244. *)
Definition placed_correctly (cm : mapper) (paths : list (string * list point2))
    (loc : point3) : bool :=
  existsb (fun '(_, path) => contains_point path (reproject cm loc)) paths.

Definition placement_accuracy (cm : mapper) (st : state) : Q :=
  if (0 <? spike_count st)%nat
  then inject_Z (Z.of_nat (List.count_occ Bool.bool_dec
          (map (placed_correctly cm (zone_paths st)) (bump_locations st)) true))
       / inject_Z (Z.of_nat (spike_count st)) * 100
  else 0.

Inductive outcome :=
  | Fatal (msg : string)
  | Finished (warnings : list string) (cm : mapper) (st : state).

(** Lines 19-244 after the input files are loaded. *)
Definition run (c : coco) (m : mesh) (zones : list string) : outcome :=
  let selected_zones := map lower zones in
  let zn := zone_name_to_ids_of (categories c) in
  let '(selected_ids, warns) := resolve_selected zn selected_zones in
  if negb (nonempty selected_ids) && nonempty selected_zones
  then Fatal "None of the selected zones matched known categories."
  else
    let cm := make_mapper m c in
    Finished warns cm (fold_left (process_annotation c m cm selected_ids)
                         (annotations c) (init_state zn)).

(** ** Export (lines 22, 249-259) *)

(** Python's [str.__contains__]. *)
Fixpoint py_contains (sub s : string) : bool :=
  String.prefix sub s ||
  match s with
  | EmptyString => false
  | String _ s' => py_contains sub s'
  end.

Fixpoint interleave (new s : string) : string :=
  match s with
  | EmptyString => new
  | String c s' => new ++ String c (interleave new s')
  end.

(** [str.replace(old, new)]: every non-overlapping occurrence, scanning
    left to right; [skip] counts the characters of a match still to drop. *)
Fixpoint replace_go (old new : string) (skip : nat) (s : string) : string :=
  match s with
  | EmptyString => EmptyString
  | String c s' =>
      match skip with
      | S k => replace_go old new k s'
      | O => if String.prefix old s
             then new ++ replace_go old new (pred (String.length old)) s'
             else String c (replace_go old new 0 s')
      end
  end.

Definition py_replace (old new s : string) : string :=
  match old with
  | EmptyString => interleave new s
  | _ => replace_go old new 0 s
  end.

(** [args.output or f"sole_with_spikes_{foot}.ply"] *)
Definition output_file_of (output : option string) (foot : string) : string :=
  match output with
  | Some o => if String.eqb o "" then "sole_with_spikes_" ++ lower foot ++ ".ply" else o
  | None => "sole_with_spikes_" ++ lower foot ++ ".ply"
  end.

Definition stl_output_of (output_file : string) : string :=
  py_replace ".ply" ".stl" output_file.

(** trimesh's [combined.export(path)]: the bytes for [path]'s format, or
    [None] when the export raises. *)
Variable export_bytes : string -> list piece -> option string.

(** The process exit status and the files on disk after the run. *)
Definition main_io (c : coco) (m : mesh) (zones : list string)
    (output : option string) (foot : string) (fs : gmap string string)
    : Z * gmap string string :=
  let output_file := output_file_of output foot in
  match run c m zones with
  | Fatal _ => (1%Z, fs)
  | Finished _ _ st =>
      match export_bytes output_file (spikes st) with
      | None => (1%Z, fs)
      | Some b1 =>
          let fs := <[output_file := b1]> fs in
          let stl_output := stl_output_of output_file in
          match export_bytes stl_output (spikes st) with
          | None => (1%Z, fs)
          | Some b2 => (0%Z, <[stl_output := b2]> fs)
          end
      end
  end.

End Pipeline.

(** ** Dome synthesis (lines 82-99, 198-199) *)

Module Dome.

Local Open Scope R_scope.

Definition vec3 : Type := (R * R * R)%type.

Definition vz (p : vec3) : R := snd p.

(** [np.linspace(start, stop, num)]: element [i] is
    [i * ((stop - start) / (num - 1)) + start], and the last one is set to
    [stop] when [num > 1]. *)
Definition linspace (start stop : R) (num : nat) : list R :=
  map (fun i => if (1 <? num)%nat && (i =? num - 1)%nat then stop
                else INR i * ((stop - start) / INR (num - 1)) + start)
      (seq 0 num).

Record trimesh := mk_trimesh {
  vertices : list vec3;
  faces : list (nat * nat * nat)
}.

(** [np.meshgrid(u, v)] flattened row-major: row [i] is [v_i], column [j]
    is [u_j]. *)
Definition create_ellipsoid_bump (rx ry rz : R) (sections stacks : nat) : trimesh :=
  let us := linspace 0 (2 * PI) sections in
  let vs := linspace 0 (PI / 2) stacks in
  let verts := flat_map (fun v =>
      map (fun u => (rx * cos u * sin v, ry * sin u * sin v, rz * cos v)) us) vs in
  let fcs := flat_map (fun i =>
      flat_map (fun j =>
          let p0 := (i * sections + j)%nat in
          let p1 := S p0 in
          let p2 := (p0 + sections)%nat in
          let p3 := S p2 in
          [(p0, p2, p1); (p1, p2, p3)]) (seq 0 (sections - 1)))
      (seq 0 (stacks - 1)) in
  mk_trimesh verts fcs.

Definition apply_translation (t : vec3) (msh : trimesh) : trimesh :=
  mk_trimesh (map (fun '(x, y, z) => (x + fst (fst t), y + snd (fst t), z + snd t))
                (vertices msh))
             (faces msh).

Definition bump_radius : R := 25 / 10.
Definition bump_height : R := 4.

(** Lines 198-199: the bump placed at [(x3d, y3d, z3d + 0.01)]. *)
Definition placed_bump (x3d y3d z3d : R) : trimesh :=
  apply_translation (x3d, y3d, z3d + 1 / 100)
    (create_ellipsoid_bump bump_radius bump_radius bump_height 20 10).

End Dome.

(** ** Nearest-neighbour spacing (lines 218-231) *)

Module Spacing.

Local Open Scope R_scope.

Definition to_R3 (p : point3) : R * R * R := (Q2R (px p), Q2R (py p), Q2R (pz p)).

(** [np.linalg.norm(a - b)] for 3-vectors. *)
Definition norm3 (p q : point3) : R :=
  let '(x1, y1, z1) := to_R3 p in
  let '(x2, y2, z2) := to_R3 q in
  sqrt ((x1 - x2) ^ 2 + (y1 - y2) ^ 2 + (z1 - z2) ^ 2).

(** The inner loop for bump [i]: [min_distance] starts at [float('inf')]
    ([None]) and takes every [distance] with [0 < distance < min_distance]. *)
Definition min_distance_of (locs : list point3) (i : nat) (p : point3) : option R :=
  fold_left (fun md '(j, q) =>
      if Nat.eqb i j then md
      else
        let d := norm3 p q in
        match md with
        | None => if Rlt_dec 0 d then Some d else md
        | Some mv => if Rlt_dec 0 d then if Rlt_dec d mv then Some d else md else md
        end)
    (combine (seq 0 (length locs)) locs) None.

Definition bump_spacing (locs : list point3) : list R :=
  if (1 <? length locs)%nat
  then flat_map (fun '(i, p) =>
         match min_distance_of locs i p with Some d => [d] | None => [] end)
       (combine (seq 0 (length locs)) locs)
  else [].

(** [np.mean]. *)
Definition mean (xs : list R) : R := fold_right Rplus 0 xs / INR (length xs).

(** [avg_spacing = np.mean(bump_spacing) if bump_spacing else step]. *)
Definition avg_spacing (locs : list point3) : R :=
  match bump_spacing locs with
  | [] => Q2R step
  | xs => mean xs
  end.

End Spacing.

(** ** Filtered per-zone counts (line 247) *)

Definition filter_zone_bumps (zb : gmap string nat) : gmap string nat :=
  filter (fun kv => (0 < kv.2)%nat) zb.

(** ** The web front end (app.py) *)

Module App.

Local Open Scope string_scope.

(** Python's [str.upper] on ASCII letters. *)
Definition upper_ascii (c : ascii) : ascii :=
  let n := nat_of_ascii c in
  if (97 <=? n)%nat && (n <=? 122)%nat then ascii_of_nat (n - 32) else c.

Fixpoint upper (s : string) : string :=
  match s with
  | EmptyString => EmptyString
  | String c s' => String (upper_ascii c) (upper s')
  end.

Definition reserved : list string := ["LEFT_FOOT_ORGANS"; "RIGHT_FOOT_ORGANS"].

(** A zone config file as [load_valid_zone_keys] reads it: [None] when the
    file is missing or fails to load, [Some None] when it has no
    "categories" field, otherwise each category's optional "name". *)
Definition config : Type := option (option (list (option string))).

(** Lines 25-40. *)
Definition load_valid_zone_keys (cfg : config) : option (gset string) :=
  match cfg with
  | None => None
  | Some None => Some ∅
  | Some (Some cats) =>
      Some (list_to_set (flat_map (fun n =>
        match n with
        | Some name =>
            if existsb (String.eqb (upper name)) reserved then [] else [upper name]
        | None => []
        end) cats))
  end.

(** A loaded annotation document read as a zone config. *)
Definition config_of (c : coco) : config :=
  Some (Some (map (fun cat => Some (cat_name cat)) (categories c))).

(** Lines 76-88: upper-case each submitted value, keep the known ones
    once each in first-seen order, collect the unknown ones. *)
Definition map_zones (valid : gset string) (areas : list string)
    : list string * list string :=
  fold_left (fun '(zs, unknown) v =>
      let k := upper v in
      if bool_decide (k ∈ valid)
      then (if existsb (String.eqb k) zs then (zs, unknown) else (app zs [k], unknown))
      else (zs, app unknown [v])) areas ([], []).

(** The outcome of [subprocess.run(command, check=True, ...)]. *)
Inductive script_result :=
  | ScriptOk
  | ScriptFailed (stdout stderr : string)
  | ScriptNotFound (msg : string)
  | ScriptOther (msg : string).

(** What the route sees of the world: the zone keys loaded at start-up,
    which files exist before and after the script, and how the script
    run ends for a command. *)
Record env := mk_env {
  keys_left : option (gset string);
  keys_right : option (gset string);
  exists_before : string -> bool;
  run_script : list string -> script_result;
  exists_after : string -> bool
}.

Inductive response :=
  | ErrorResp (code : Z) (msg : string)
  | SuccessResp (filename : string) (zones : list string).

(** [(s or t)] on strings. *)
Definition str_or (s t : string) : string :=
  match s with EmptyString => t | _ => s end.

Definition foot_keys (e : env) (f : string) : option (gset string) :=
  if String.eqb f "left" then keys_left e else keys_right e.

(** Lines 53-146, the POST branch of [/generate_slippers]; the first word
    of the command, [PYTHON_EXECUTABLE] ([sys.executable]), is written
    "python". *)
Definition generate_slippers_route (e : env) (areas : list string)
    (foot size : option string) : response :=
  match keys_left e, keys_right e with
  | Some kl, Some kr =>
      if negb (nonempty areas)
      then ErrorResp 400 "Please select at least one reflexology area."
      else
        match foot with
        | Some f =>
            if negb (String.eqb f "left" || String.eqb f "right")
            then ErrorResp 400 "Please select either Left Foot or Right Foot."
            else
              match size with
              | None | Some EmptyString => ErrorResp 400 "Please select a foot size."
              | Some _ =>
                  let valid := if String.eqb f "left" then kl else kr in
                  let '(zs, unknown) := map_zones valid areas in
                  if negb (nonempty zs)
                  then ErrorResp 400
                         ("None of the selected areas could be mapped to known zones." ++
                          if nonempty unknown
                          then " Unrecognized values: " ++ String.concat ", " unknown ++ "."
                          else EmptyString)
                  else
                    let target_foot := lower f in
                    let input_stl := if String.eqb target_foot "left"
                                     then "Shoe_Sole_UK_8_Left.stl"
                                     else "Shoe_Sole_UK_8_Right.stl" in
                    if negb (exists_before e input_stl)
                    then ErrorResp 404 ("Input STL file for " ++ target_foot ++
                                        " foot (UK size 8) not found.")
                    else
                      let out := "sole_with_spikes_" ++ target_foot ++ ".ply" in
                      let command := app ["python"; "generate_slippers.py"; "--foot"; target_foot;
                                      "--input"; input_stl; "--output"; out] zs in
                      match run_script e command with
                      | ScriptOk =>
                          if exists_after e out then SuccessResp out zs
                          else ErrorResp 500 "Script ran but output PLY file was not created."
                      | ScriptNotFound msg =>
                          ErrorResp 500 ("Server error: Could not find script or Python executable: " ++ msg)
                      | ScriptFailed so se =>
                          ErrorResp 500 ("Error during generation: " ++
                            substring 0 500 (str_or se (str_or so "Unknown script error")))
                      | ScriptOther msg =>
                          ErrorResp 500 ("An unexpected server error occurred: " ++ msg)
                      end
              end
        | None => ErrorResp 400 "Please select either Left Foot or Right Foot."
        end
  | _, _ => ErrorResp 500 "Server configuration error: Cannot validate zones."
  end.

End App.

(** ** The test harness (test.py) *)

Module Harness.

(** A Python dict key: the JSON integers and strings of the documents. *)
Inductive pyval := PyInt (z : Z) | PyStr (s : string).

#[global] Instance pyval_eq_dec : EqDecision pyval.
Proof. solve_decision. Defined.

#[global] Instance pyval_countable : Countable pyval :=
  inj_countable' (fun v => match v with PyInt z => inl z | PyStr s => inr s end)
                 (fun x => match x with inl z => PyInt z | inr s => PyStr s end)
                 (fun v => match v with PyInt _ => eq_refl | PyStr _ => eq_refl end).

(** Lines 7-16: [polygons[ann['category_id']] = points], keyed by the
    integer category id; an annotation without a segmentation or with an
    odd coordinate count raises. *)
Definition load_coco_annotations (c : coco) : option (gmap pyval (list point2) * Q * Q) :=
  match fold_left (fun acc ann =>
      match acc with
      | None => None
      | Some polys =>
          match segmentation ann with
          | flat :: _ =>
              match reshape_pairs flat with
              | Some pts => Some (<[PyInt (category_id ann) := pts]> polys)
              | None => None
              end
          | [] => None
          end
      end) (annotations c) (Some ∅) with
  | Some polys => Some (polys, img_width c, img_height c)
  | None => None
  end.

(** Lines 20-30: the ray origins, without the pipeline's 10 mm margin. *)
Definition ray_origin (m : mesh) (w h : Q) (pt : point2) : point3 :=
  let x_scale := (px (bounds_max m) - px (bounds_min m)) / w in
  let y_scale := (py (bounds_max m) - py (bounds_min m)) / h in
  (fst pt * x_scale + px (bounds_min m),
   (h - snd pt) * y_scale + py (bounds_min m),
   pz (bounds_max m) + 10).

(** Lines 36-41: with [multiple_hits=False] trimesh reports at most one
    location per ray ([first_hit]); the rate is the number of locations
    over the number of rays, times 100. *)
Definition ray_casting_success_rate (first_hit : point3 -> point3 -> option point3)
    (m : mesh) (points_2d : list point2) (w h : Q) : Q :=
  let origins := map (ray_origin m w h) points_2d in
  let locations := flat_map (fun o =>
      match first_hit o (0, 0, -1) with Some l => [l] | None => [] end) origins in
  if (0 <? length origins)%nat
  then inject_Z (Z.of_nat (length locations)) / inject_Z (Z.of_nat (length origins)) * 100
  else 0.

(** What [main] ends with: an exception, the "No heart zone found"
    message, or the printed metrics of [ray_casting]. *)
Inductive test_out := TestCrash | TestNoHeart | TestRan (success_rate : Q).

(** Lines 56-77, with the annotation document and the mesh as loaded. *)
Definition test_main (first_hit : point3 -> point3 -> option point3) (m : mesh) (c : coco)
    : test_out :=
  match load_coco_annotations c with
  | None => TestCrash
  | Some (polygons, img_width, img_height) =>
      let zone_points := default [] (polygons !! PyStr "heart") in
      if negb (nonempty zone_points) then TestNoHeart
      else TestRan (ray_casting_success_rate first_hit m zone_points img_width img_height)
  end.

End Harness.

(** ** Sample inputs *)

(** An axis-aligned box test standing in for [Path.contains_point] on
    rectangles: strictly inside the bounding box of the vertices. *)
Definition box_contains (path : list point2) (p : point2) : bool :=
  match seg_bbox path with
  | Some (a, b, c, d) =>
      negb (Qle_bool (fst p) a) && negb (Qle_bool c (fst p))
      && negb (Qle_bool (snd p) b) && negb (Qle_bool d (snd p))
  | None => false
  end.

(** A flat slab with bounds (0,0,0)-(100,100,5) whose faces extend under
    every mapped point: each downward ray hits the bottom face at z = 0
    and the top face at z = 5. *)
Definition flat_slab : mesh :=
  mk_mesh (0, 0, 0) (100, 100, 5) (fun o _ => [(px o, py o, 0); (px o, py o, 5)]).

(** The same slab as a closed solid: a downward ray hits its bottom face
    at z = 0 and its top face at z = 5 exactly when it starts over the
    footprint [0, 100] x [0, 100], and misses otherwise. *)
Definition footprint_slab : mesh :=
  mk_mesh (0, 0, 0) (100, 100, 5)
    (fun o _ => if Qle_bool 0 (px o) && Qle_bool (px o) 100
                   && Qle_bool 0 (py o) && Qle_bool (py o) 100
                then [(px o, py o, 0); (px o, py o, 5)] else []).

Definition sq (x0 y0 w : Q) : list Q := [x0; y0; x0 + w; y0; x0 + w; y0 + w; x0; y0 + w].

Definition heart_doc : coco :=
  mk_coco 100 100 [mk_category 1 "Heart"; mk_category 2 "Liver"]
    [mk_annotation 10 1 [sq 0 0 10]].

(** The same document without any annotation. *)
Definition empty_doc : coco := mk_coco 100 100 (categories heart_doc) [].

(** One zone drawn as two annotations (two disjoint squares, both
    mapping inside the footprint of [footprint_slab]). *)
Definition two_heart_doc : coco :=
  mk_coco 100 100 (categories heart_doc)
    [mk_annotation 10 1 [sq 20 20 10]; mk_annotation 11 1 [sq 40 40 10]].

(** A sole twice as long in x as the one above: 2 mm per pixel in x. *)
Definition wide_slab : mesh :=
  mk_mesh (0, 0, 0) (200, 100, 5) (intersects_location flat_slab).

(** A 12 x 12 pixel zone. *)
Definition wide_doc : coco :=
  mk_coco 100 100 (categories heart_doc) [mk_annotation 10 1 [sq 0 0 12]].

(** The web front end with [heart_doc] as the zone config of both feet,
    both sole models present, and a script that succeeds and writes its
    output. *)
Definition sample_env : App.env :=
  App.mk_env (App.load_valid_zone_keys (App.config_of heart_doc))
             (App.load_valid_zone_keys (App.config_of heart_doc))
             (fun _ => true) (fun _ => App.ScriptOk) (fun _ => true).

(** The same front end with a script that cannot be started and leaves
    no file. *)
Definition broken_script_env : App.env :=
  App.mk_env (App.keys_left sample_env) (App.keys_right sample_env) (App.exists_before sample_env)
             (fun _ => App.ScriptNotFound "python") (fun _ => false).

(** The polygons of the annotation set, every annotation of every zone,
    as the spec's mapping-accuracy sentence reads them. *)
Definition annotation_polygons (c : coco) : list (list point2) :=
  flat_map (fun ann =>
      match segmentation ann with
      | flat :: _ => match reshape_pairs flat with Some seg => [seg] | None => [] end
      | [] => []
      end) (annotations c).

(** ** Helpers for the statements *)

Definition is_known (zn : gmap string (list Z)) (z : string) : bool :=
  match zn !! z with Some _ => true | None => false end.

Definition fatal_msg : string := "None of the selected zones matched known categories.".

(** The candidate points of a zone, in the row-major order the nested
    loops of lines 179-180 visit them. *)
Definition grid_points (bb : Q * Q * Q * Q) : list point2 :=
  let '(min_x, min_y, max_x, max_y) := bb in
  flat_map (fun xi => map (fun yi => (xi, yi)) (arange min_y max_y step))
    (arange min_x max_x step).

Definition ray_hits (m : mesh) (o : point3) : bool :=
  nonempty (intersects_location m o (0, 0, -1)).

(** Every cast ray is logged and counted once; the successes are the
    logged rays that hit. *)
Definition counters_ok (m : mesh) (st : state) : Prop :=
  ray_casting_attempts st = length (rays_cast st)
  /\ ray_casting_successes st = length (List.filter (ray_hits m) (rays_cast st)).

(** The first square of [heart_doc] as a polygon, and the mapper of
    [flat_slab] with [heart_doc]'s image. *)
Definition sq_path : list point2 := [(0, 0); (10, 0); (10, 10); (0, 10)].

Definition heart_mapper : mapper := make_mapper flat_slab heart_doc.

(** The ids of the categories whose lower-cased name is [k], in order. *)
Definition ids_named (cats : list category) (k : string) : list Z :=
  map cat_id (List.filter (fun cat => String.eqb (lower (cat_name cat)) k) cats).

(** A point within the closed box [(min_x, min_y, max_x, max_y)]. *)
Definition in_box (bb : Q * Q * Q * Q) (p : point2) : Prop :=
  let '(a, b, c, d) := bb in a <= fst p <= c /\ b <= snd p <= d.

(** A string of 7-bit ASCII characters: on such strings Python's
    [str.lower] and [str.upper] are the letter mappings [lower] and
    [App.upper] (beyond ASCII they are not: ['ß'.upper()] is ['SS']). *)
Fixpoint is_ascii7 (s : string) : bool :=
  match s with
  | EmptyString => true
  | String c s' => (nat_of_ascii c <? 128)%nat && is_ascii7 s'
  end.

(** The sum of the per-zone bump counts. *)
Definition zone_total (zb : gmap string nat) : nat :=
  map_fold (fun _ v acc => (v + acc)%nat) 0%nat zb.

(** The sole model the route hands to the script for a foot. *)
Definition input_stl_for (f : string) : string :=
  if String.eqb f "left" then "Shoe_Sole_UK_8_Left.stl" else "Shoe_Sole_UK_8_Right.stl".

(** [np.array(ann['segmentation'][0]).reshape(-1, 2)], [None] when it raises. *)
Definition first_seg (ann : annotation) : option (list point2) :=
  match segmentation ann with
  | flat :: _ => reshape_pairs flat
  | [] => None
  end.

(** [array.flatten()] of an [(n, 2)] array. *)
Definition flatten_pairs (ps : list point2) : list Q :=
  flat_map (fun '(x, y) => [x; y]) ps.

Example arange_ex : arange 0 7 5 = [0; 5].
Proof. reflexivity. Qed.

Example py_replace_ex : py_replace ".ply" ".stl" "a.ply.ply" = "a.stl.stl".
Proof. reflexivity. Qed.

Example run_heart_ex :
  match run box_contains heart_doc flat_slab ["HEART"] with
  | Finished w _ st => (w, spike_count st, ray_casting_attempts st,
                         map (fun p => (Qred (px p), Qred (py p), Qred (pz p))) (bump_locations st))
  | Fatal _ => ([], 0%nat, 0%nat, [])
  end = ([], 1%nat, 1%nat, [(15, 105, 5)]).
Proof. vm_compute. reflexivity. Qed.

(** ** Zone selection *)


Lemma resolve_selected_acc (zn : gmap string (list Z)) (zs : list string) ids warns :
  fold_left (fun '(ids, warns) zone =>
      match zn !! zone with
      | Some l => (ids ++ l, warns)
      | None => (ids, warns ++ [zone])
      end) zs (ids, warns)
  = (ids ++ concat (map (fun z => default [] (zn !! z)) zs),
     warns ++ List.filter (fun z => negb (is_known zn z)) zs).
Proof.
  revert ids warns. induction zs as [|z zs IH]; intros ids warns; simpl.
  - by rewrite !app_nil_r.
  - unfold is_known. destruct (zn !! z) as [l|] eqn:E; simpl; rewrite IH.
    + by rewrite app_assoc.
    + by rewrite <- app_assoc.
Qed.

Lemma resolve_selected_spec (zn : gmap string (list Z)) (zs : list string) :
  resolve_selected zn zs
  = (concat (map (fun z => default [] (zn !! z)) zs),
     List.filter (fun z => negb (is_known zn z)) zs).
Proof. unfold resolve_selected. by rewrite resolve_selected_acc. Qed.

Lemma zone_name_to_ids_nonempty (cats : list category) (k : string) (l : list Z) :
  zone_name_to_ids_of cats !! k = Some l -> l <> [].
Proof.
  unfold zone_name_to_ids_of.
  assert (Hinv : forall acc : gmap string (list Z),
    (forall k l, acc !! k = Some l -> l <> []) ->
    forall k l, fold_left (fun acc cat =>
      let name := lower (cat_name cat) in
      let ids := default [] (acc !! name) in
      <[name := ids ++ [cat_id cat]]> acc) cats acc !! k = Some l -> l <> []).
  { induction cats as [|cat cats IH]; intros acc H; simpl; [exact H|].
    apply IH. intros k' l'. destruct (decide (k' = lower (cat_name cat))) as [->|Hne].
    - rewrite lookup_insert_eq. intros [= <-]. destruct (default [] _); discriminate.
    - rewrite lookup_insert_ne by congruence. apply H. }
  apply Hinv. intros k' l'. by rewrite lookup_empty.
Qed.

Lemma concat_known_nil (zn : gmap string (list Z)) (zs : list string) :
  (forall k l, zn !! k = Some l -> l <> []) ->
  concat (map (fun z => default [] (zn !! z)) zs) = [] <->
  Forall (fun z => zn !! z = None) zs.
Proof.
  intros Hne. induction zs as [|z zs IH]; simpl.
  - split; auto.
  - rewrite Forall_cons. destruct (zn !! z) as [l|] eqn:E; simpl.
    + split; [|intros [H _]; discriminate].
      intros H. apply app_eq_nil in H as [-> _]. by apply Hne in E.
    + rewrite IH. tauto.
Qed.


(** C8: every requested name missing from the category map gives one
    warning, in order, and the run continues when some name resolves; when
    names were supplied and none resolves, the run stops with the fatal
    "no matching categories" error before any processing, and exits with
    status 1 leaving the files on disk untouched. *)
Theorem unknown_zone_names_C8 (cp : list point2 -> point2 -> bool)
    (ex : string -> list piece -> option string) (c : coco) (m : mesh)
    (zones : list string) (output : option string) (foot : string)
    (fs : gmap string string) :
  let zn := zone_name_to_ids_of (categories c) in
  let sel := map lower zones in
  (snd (resolve_selected zn sel) = List.filter (fun z => negb (is_known zn z)) sel)
  /\ (zones <> [] -> Forall (fun z => zn !! z = None) sel ->
      run cp c m zones = Fatal fatal_msg
      /\ main_io cp ex c m zones output foot fs = (1%Z, fs))
  /\ (Exists (fun z => zn !! z <> None) sel ->
      exists cm st, run cp c m zones
        = Finished (List.filter (fun z => negb (is_known zn z)) sel) cm st).
Proof.
  intros zn sel.
  pose proof (zone_name_to_ids_nonempty (categories c)) as Hne.
  pose proof (concat_known_nil zn sel Hne) as Hnil.
  assert (Hrun : run cp c m zones =
    let '(selected_ids, warns) := resolve_selected zn sel in
    if negb (nonempty selected_ids) && nonempty sel then Fatal fatal_msg
    else Finished warns (make_mapper m c)
           (fold_left (process_annotation cp c m (make_mapper m c) selected_ids)
              (annotations c) (init_state zn))) by reflexivity.
  rewrite resolve_selected_spec in Hrun |- *.
  split; [reflexivity|split].
  - intros Hz Hall.
    assert (Hr : run cp c m zones = Fatal fatal_msg).
    { rewrite Hrun. apply Hnil in Hall. rewrite Hall.
      destruct zones; [congruence|reflexivity]. }
    split; [exact Hr|]. unfold main_io. by rewrite Hr.
  - intros Hex. rewrite Hrun.
    assert (Hn : concat (map (fun z => default [] (zn !! z)) sel) <> []).
    { intros E. apply Hnil in E. apply List.Exists_exists in Hex as (z & Hz & Hz').
      rewrite List.Forall_forall in E. exact (Hz' (E z Hz)). }
    destruct (concat (map (fun z => default [] (zn !! z)) sel)); [congruence|].
    simpl. eauto.
Qed.

(** C1 (as amended): with zero zone names there is no warning and no fatal
    error, and the category filter is skipped, so every annotation of the
    document goes through the processing body, as if all zones had been
    selected. *)
Theorem no_zone_names_C1 (cp : list point2 -> point2 -> bool) (c : coco) (m : mesh) :
  run cp c m [] =
  Finished [] (make_mapper m c)
    (fold_left (annotation_body cp c m (make_mapper m c)) (annotations c)
       (init_state (zone_name_to_ids_of (categories c)))).
Proof. reflexivity. Qed.

(** C1: with zero zone names the run still samples the annotation, casts a
    ray and places a bump. *)
Lemma no_zone_names_cex_C1 :
  match run box_contains heart_doc flat_slab [] with
  | Finished _ _ st => (0 < ray_casting_attempts st)%nat /\ (0 < spike_count st)%nat
  | Fatal _ => False
  end.
Proof. vm_compute. lia. Qed.

(** ** Surface locator *)

Lemma py_max_spec (xs : list Q) (x : Q) :
  In (py_max x xs) (x :: xs) /\ (forall y, In y (x :: xs) -> y <= py_max x xs).
Proof.
  revert x. induction xs as [|y ys IH]; intros x; simpl.
  - split; [left; reflexivity|]. intros y [<-|[]]. apply Qle_refl.
  - unfold py_max in IH |- *. simpl.
    destruct (Qlt_le_dec x y) as [Hlt|Hle].
    + destruct (IH y) as [Hin Hmax]. split.
      * right. exact Hin.
      * intros z [<-|Hz].
        -- apply Qle_trans with y; [apply Qlt_le_weak, Hlt|apply Hmax; left; reflexivity].
        -- apply Hmax. exact Hz.
    + destruct (IH x) as [Hin Hmax]. split.
      * destruct Hin as [<-|Hin]; [left; reflexivity|right; right; exact Hin].
      * intros z [<-|[<-|Hz]].
        -- apply Hmax. left. reflexivity.
        -- apply Qle_trans with x; [exact Hle|apply Hmax; left; reflexivity].
        -- apply Hmax. right. exact Hz.
Qed.

Lemma argmax_aux_spec (zs : list Q) :
  forall xs pre i best bv,
    zs = pre ++ xs -> length pre = i -> (best < i)%nat ->
    nth best zs 0 = bv -> (forall y, In y pre -> y <= bv) ->
    let r := argmax_aux xs i best bv in
    (r < length zs)%nat /\ (forall y, In y zs -> y <= nth r zs 0).
Proof.
  induction xs as [|y ys IH]; intros pre i best bv Hzs Hlen Hb Hbv Hpre; simpl.
  - rewrite app_nil_r in Hzs. subst zs. split; [lia|]. rewrite Hbv. exact Hpre.
  - destruct (Qlt_le_dec bv y) as [Hlt|Hle].
    + apply (IH (pre ++ [y])).
      * rewrite <- app_assoc. exact Hzs.
      * rewrite length_app. simpl. lia.
      * lia.
      * rewrite Hzs, app_nth2 by lia. replace (i - length pre)%nat with 0%nat by lia.
        reflexivity.
      * intros z Hz. apply in_app_or in Hz as [Hz|[<-|[]]].
        -- apply Qle_trans with bv; [apply Hpre, Hz|apply Qlt_le_weak, Hlt].
        -- apply Qle_refl.
    + apply (IH (pre ++ [y])).
      * rewrite <- app_assoc. exact Hzs.
      * rewrite length_app. simpl. lia.
      * lia.
      * exact Hbv.
      * intros z Hz. apply in_app_or in Hz as [Hz|[<-|[]]]; [apply Hpre, Hz|exact Hle].
Qed.

Lemma np_argmax_spec (z0 : Q) (zs : list Q) :
  (np_argmax (z0 :: zs) < S (length zs))%nat
  /\ (forall y, In y (z0 :: zs) -> y <= nth (np_argmax (z0 :: zs)) (z0 :: zs) 0).
Proof.
  apply (argmax_aux_spec (z0 :: zs) zs [z0] 1 0 z0); simpl; auto.
  intros y [<-|[]]. apply Qle_refl.
Qed.

(** The hit [top_hit] selects lies on the ray, has the largest z of all
    hits, and [z3d] is that z. *)
Lemma top_hit_spec (l0 : point3) (ls : list point3) :
  In (snd (top_hit l0 ls)) (l0 :: ls)
  /\ (forall h, In h (l0 :: ls) -> pz h <= pz (snd (top_hit l0 ls)))
  /\ fst (top_hit l0 ls) == pz (snd (top_hit l0 ls)).
Proof.
  unfold top_hit. cbv zeta. cbn [fst snd].
  destruct (np_argmax_spec (pz l0) (map pz ls)) as [Hlt Hmax].
  change (pz l0 :: map pz ls) with (map pz (l0 :: ls)) in *.
  set (k := np_argmax (map pz (l0 :: ls))) in *.
  rewrite length_map in Hlt.
  assert (Hk : nth k (map pz (l0 :: ls)) 0 = pz (nth k (l0 :: ls) l0)).
  { rewrite (nth_indep _ _ (pz l0)) by (rewrite length_map; simpl; lia).
    apply map_nth. }
  rewrite Hk in Hmax.
  split; [apply nth_In; simpl; lia|]. split.
  - intros h Hh. apply Hmax. apply in_map. exact Hh.
  - destruct (py_max_spec (map pz ls) (pz l0)) as [Hin Hpm].
    change (pz l0 :: map pz ls) with (map pz (l0 :: ls)) in *.
    apply Qle_antisym.
    + apply in_map_iff in Hin as (h & <- & Hh). apply Hmax. apply in_map. exact Hh.
    + apply Hpm. rewrite <- Hk. apply nth_In. rewrite length_map. simpl. lia.
Qed.

(** C2: for a contained grid point whose downward ray from
    (x3d, y3d, top_z + 10) hits the mesh at least once, the point recorded
    for the bump is one of the ray's hits with the largest z, and the bump
    is translated to that z plus 0.01. *)
Theorem surface_point_max_z_C2 (cp : list point2 -> point2 -> bool) (m : mesh)
    (cm : mapper) (zone : string) (color : list Z) (path : list point2)
    (st : state) (xi yi : Q) :
  cp path (xi, yi) = true ->
  let origin : point3 := (fst (map_2d_to_3d cm xi yi), snd (map_2d_to_3d cm xi yi),
                          pz (bounds_max m) + 10) in
  let hits := intersects_location m origin (0, 0, -1) in
  hits <> [] ->
  exists loc b,
    bump_locations (sample_point cp m cm zone color path st xi yi)
      = bump_locations st ++ [loc]
    /\ spikes (sample_point cp m cm zone color path st xi yi)
      = spikes st ++ [BumpPiece b]
    /\ In loc hits
    /\ (forall h, In h hits -> pz h <= pz loc)
    /\ pz (bump_translation b) == pz loc + (1 # 100).
Proof.
  intros Hc origin hits Hne.
  unfold sample_point. rewrite Hc.
  unfold hits, origin in Hne |- *. unfold map_2d_to_3d in *. cbn [fst snd] in Hne |- *.
  destruct (intersects_location m _ _) as [|l0 ls] eqn:E; [congruence|].
  destruct (top_hit_spec l0 ls) as (Hin & Hmax & Hz).
  destruct (top_hit l0 ls) as [z3d loc] eqn:Ht. cbn [fst snd] in *.
  eexists loc, _. split; [reflexivity|]. split; [reflexivity|].
  split; [exact Hin|]. split; [exact Hmax|].
  unfold pz at 1. cbn. rewrite Hz. reflexivity.
Qed.

(** ** Sampling grid *)

Lemma length_arange (lo hi s : Q) :
  length (arange lo hi s) = Z.to_nat (Qceiling ((hi - lo) / s)).
Proof. unfold arange, arange_len. by rewrite length_map, length_seq. Qed.

Lemma nth_arange (lo hi s : Q) (i : nat) :
  (i < length (arange lo hi s))%nat ->
  nth i (arange lo hi s) 0 = lo + inject_Z (Z.of_nat i) * s.
Proof.
  unfold arange. rewrite length_map, length_seq. intros Hi.
  set (f := fun i => lo + inject_Z (Z.of_nat i) * s).
  rewrite (nth_indep _ _ (f 0%nat)) by (rewrite length_map, length_seq; exact Hi).
  rewrite map_nth, seq_nth by exact Hi. reflexivity.
Qed.

Lemma in_arange (lo hi s e : Q) :
  In e (arange lo hi s) <->
  exists i, (i < arange_len lo hi s)%nat /\ e = lo + inject_Z (Z.of_nat i) * s.
Proof.
  unfold arange. rewrite in_map_iff. split.
  - intros (i & <- & Hi). apply in_seq in Hi. exists i. split; [lia|reflexivity].
  - intros (i & Hi & ->). exists i. split; [reflexivity|]. apply in_seq. lia.
Qed.

Lemma arange_half_open (lo hi s e : Q) :
  0 < s -> In e (arange lo hi s) -> lo <= e /\ e < hi.
Proof.
  intros Hs He. apply in_arange in He as (i & Hi & ->).
  unfold arange_len in Hi.
  set (q := (hi - lo) / s) in *.
  assert (Hz : (Z.of_nat i <= Qceiling q - 1)%Z) by lia.
  rewrite Zle_Qle in Hz.
  pose proof (Qceiling_lt q) as Hc.
  assert (Hiq : inject_Z (Z.of_nat i) < q) by (eapply Qle_lt_trans; eassumption).
  assert (Hq : q * s == hi - lo) by (unfold q; field; lra).
  assert (H0 : 0 <= inject_Z (Z.of_nat i)).
  { change 0 with (inject_Z 0). rewrite <- Zle_Qle. lia. }
  split; nra.
Qed.


Lemma fold_left_map_fn {A B C} (g : A -> B -> A) (h : C -> B) (l : list C) (a : A) :
  fold_left g (map h l) a = fold_left (fun a x => g a (h x)) l a.
Proof. revert a. induction l as [|x l IH]; intros a; simpl; [reflexivity|apply IH]. Qed.

Lemma sample_grid_points (cp : list point2 -> point2 -> bool) (m : mesh) (cm : mapper)
    (zone : string) (color : list Z) (path : list point2) (bb : Q * Q * Q * Q)
    (st : state) :
  sample_grid cp m cm zone color path bb st
  = fold_left (fun st p => sample_point cp m cm zone color path st (fst p) (snd p))
      (grid_points bb) st.
Proof.
  destruct bb as [[[min_x min_y] max_x] max_y]. unfold sample_grid, grid_points.
  generalize (arange min_y max_y step) as ys.
  generalize (arange min_x max_x step) as xs.
  intros xs ys. revert st. induction xs as [|x xs IH]; intros st; simpl; [reflexivity|].
  rewrite fold_left_app, fold_left_map_fn. apply IH.
Qed.

Lemma length_grid_points (bb : Q * Q * Q * Q) :
  length (grid_points bb)
  = (arange_len (fst (fst (fst bb))) (snd (fst bb)) step
     * arange_len (snd (fst (fst bb))) (snd bb) step)%nat.
Proof.
  destruct bb as [[[min_x min_y] max_x] max_y]. unfold grid_points. cbn [fst snd].
  assert (Hl : forall lo hi, length (arange lo hi step) = arange_len lo hi step).
  { intros lo hi. unfold arange. by rewrite length_map, length_seq. }
  rewrite <- !Hl.
  generalize (arange min_y max_y step) as ys.
  induction (arange min_x max_x step) as [|x xs IH]; intros ys; [reflexivity|].
  cbn [flat_map]. rewrite length_app, length_map, IH. reflexivity.
Qed.

(** C3 (as amended): each axis of the sampling grid is
    [np.arange(min, max, step)]: its points are [min + i * step], they
    satisfy [min <= p < max] (the max edge excluded), and there are
    [ceil((max - min) / step)] of them (none when [max <= min]), not
    [floor]; the zone's candidate points are the row-major product of the
    two axes, so their number is determined by the bounding box and the
    step alone. *)
Theorem grid_half_open_C3 (lo hi s : Q) (bb : Q * Q * Q * Q) :
  0 < s ->
  length (arange lo hi s) = Z.to_nat (Qceiling ((hi - lo) / s))
  /\ (forall i, (i < length (arange lo hi s))%nat ->
        nth i (arange lo hi s) 0 = lo + inject_Z (Z.of_nat i) * s)
  /\ (forall e, In e (arange lo hi s) -> lo <= e /\ e < hi)
  /\ (forall cp m cm zone color path st,
        sample_grid cp m cm zone color path bb st
        = fold_left (fun st p => sample_point cp m cm zone color path st (fst p) (snd p))
            (grid_points bb) st)
  /\ length (grid_points bb)
     = (arange_len (fst (fst (fst bb))) (snd (fst bb)) step
        * arange_len (snd (fst (fst bb))) (snd bb) step)%nat.
Proof.
  intros Hs. split; [apply length_arange|]. split; [apply nth_arange|].
  split; [intros e; apply arange_half_open, Hs|].
  split; [intros; apply sample_grid_points|apply length_grid_points].
Qed.

(** C3: a 7-pixel-wide box sampled at step 5 has two grid points per row
    (x = 0 and x = 5), while [floor(7 / 5) = 1]. *)
Lemma grid_floor_cex_C3 :
  length (arange 0 7 step) = 2%nat /\
  length (arange 0 7 step) <> Z.to_nat (Qfloor ((7 - 0) / step)).
Proof. vm_compute. split; [reflexivity|discriminate]. Qed.

(** ** Ray-cast counters *)


Lemma sample_point_counters (cp : list point2 -> point2 -> bool) (m : mesh) (cm : mapper)
    (zone : string) (color : list Z) (path : list point2) (st : state) (xi yi : Q) :
  counters_ok m st -> counters_ok m (sample_point cp m cm zone color path st xi yi).
Proof.
  intros [Ha Hs]. unfold sample_point.
  destruct (cp path (xi, yi)); [|split; assumption].
  unfold map_2d_to_3d.
  destruct (intersects_location m _ _) as [|l0 ls] eqn:E.
  - unfold counters_ok, cast_ray; cbn.
    rewrite length_app, List.filter_app, length_app; cbn.
    unfold ray_hits at 2. rewrite E. cbn. lia.
  - destruct (top_hit l0 ls) as [z3d loc].
    unfold counters_ok, place_bump, ray_hit, cast_ray; cbn.
    rewrite length_app, List.filter_app, length_app; cbn.
    unfold ray_hits at 2. rewrite E. cbn. lia.
Qed.

Lemma fold_sample_counters (cp : list point2 -> point2 -> bool) (m : mesh) (cm : mapper)
    (zone : string) (color : list Z) (path : list point2) (pts : list point2) (st : state) :
  counters_ok m st ->
  counters_ok m (fold_left (fun st p => sample_point cp m cm zone color path st (fst p) (snd p))
                   pts st).
Proof.
  revert st. induction pts as [|p pts IH]; intros st H; simpl; [exact H|].
  apply IH, sample_point_counters, H.
Qed.

Lemma process_annotation_counters (cp : list point2 -> point2 -> bool) (c : coco)
    (m : mesh) (cm : mapper) (ids : list Z) (st : state) (ann : annotation) :
  counters_ok m st -> counters_ok m (process_annotation cp c m cm ids st ann).
Proof.
  intros H. unfold process_annotation.
  destruct (_ && _); [exact H|]. unfold annotation_body.
  destruct (first_category_name _ _) as [[|ch zone]|]; try exact H.
  destruct (segmentation ann) as [|flat rest]; [exact H|].
  destruct (reshape_pairs flat) as [seg|]; [|exact H].
  assert (H' : counters_ok m (set_zone_path (String ch zone) seg st)) by exact H.
  destruct (seg_bbox seg) as [bb|]; [|exact H'].
  rewrite sample_grid_points. apply fold_sample_counters, H'.
Qed.

Lemma run_counters (cp : list point2 -> point2 -> bool) (c : coco) (m : mesh)
    (zones : list string) (w : list string) (cm : mapper) (st : state) :
  run cp c m zones = Finished w cm st -> counters_ok m st.
Proof.
  unfold run. destruct (resolve_selected _ _) as [ids warns].
  destruct (_ && _); [discriminate|]. intros [= _ _ <-].
  assert (Hf : forall anns st0, counters_ok m st0 ->
    counters_ok m (fold_left (process_annotation cp c m (make_mapper m c) ids) anns st0)).
  { induction anns as [|a anns IH]; intros st0 H; simpl; [exact H|].
    apply IH, process_annotation_counters, H. }
  apply Hf. split; reflexivity.
Qed.

Lemma filter_length_le {A} (f : A -> bool) (l : list A) :
  (length (List.filter f l) <= length l)%nat.
Proof. induction l as [|x l IH]; simpl; [lia|destruct (f x); simpl; lia]. Qed.

Lemma filter_all_true {A} (f : A -> bool) (l : list A) :
  Forall (fun x => f x = true) l -> List.filter f l = l.
Proof. induction 1 as [|x l Hx _ IH]; simpl; [reflexivity|by rewrite Hx, IH]. Qed.

(** C4 (as amended): at the end of every run that reaches the metrics,
    each cast ray has been counted once in [attempts] and the successes
    are the cast rays that hit, so [successes <= attempts];
    [success_rate = successes / attempts * 100], or 0 when no ray was cast;
    [0 <= success_rate <= 100]; and [success_rate = 100] when at least one
    ray was cast and every cast ray hit the mesh. *)
Theorem success_rate_C4 (cp : list point2 -> point2 -> bool) (c : coco) (m : mesh)
    (zones : list string) (w : list string) (cm : mapper) (st : state) :
  run cp c m zones = Finished w cm st ->
  ray_casting_attempts st = length (rays_cast st)
  /\ ray_casting_successes st = length (List.filter (ray_hits m) (rays_cast st))
  /\ (ray_casting_successes st <= ray_casting_attempts st)%nat
  /\ (ray_casting_attempts st = 0%nat -> success_rate st = 0)
  /\ ((0 < ray_casting_attempts st)%nat ->
      success_rate st = inject_Z (Z.of_nat (ray_casting_successes st))
                        / inject_Z (Z.of_nat (ray_casting_attempts st)) * 100)
  /\ 0 <= success_rate st /\ success_rate st <= 100
  /\ ((0 < ray_casting_attempts st)%nat ->
      Forall (fun o => ray_hits m o = true) (rays_cast st) ->
      success_rate st == 100).
Proof.
  intros Hrun. destruct (run_counters cp c m zones w cm st Hrun) as [Ha Hs].
  assert (Hle : (ray_casting_successes st <= ray_casting_attempts st)%nat).
  { rewrite Ha, Hs. apply filter_length_le. }
  unfold success_rate.
  split; [exact Ha|]. split; [exact Hs|]. split; [exact Hle|].
  split; [intros ->; reflexivity|].
  destruct (Nat.ltb_spec 0 (ray_casting_attempts st)) as [Hpos|Hz].
  - set (a := inject_Z (Z.of_nat (ray_casting_attempts st))).
    set (s := inject_Z (Z.of_nat (ray_casting_successes st))).
    assert (Ha0 : 0 < a).
    { unfold a. change 0 with (inject_Z 0). rewrite <- Zlt_Qlt. lia. }
    assert (Hsa : s <= a) by (unfold s, a; rewrite <- Zle_Qle; lia).
    assert (Hs0 : 0 <= s) by (unfold s; change 0 with (inject_Z 0); rewrite <- Zle_Qle; lia).
    assert (Hr1 : s / a <= 1) by (apply Qle_shift_div_r; [exact Ha0|lra]).
    assert (Hr0 : 0 <= s / a) by (apply Qle_shift_div_l; [exact Ha0|lra]).
    split; [intros _; reflexivity|].
    split; [revert Hr0 Hr1; generalize (s / a); intros r ? ?; lra|].
    split; [revert Hr0 Hr1; generalize (s / a); intros r ? ?; lra|].
    intros _ Hall. rewrite filter_all_true in Hs by exact Hall. rewrite <- Ha in Hs.
    unfold s. rewrite Hs. fold a. field. lra.
  - split; [lia|]. split; [apply Qle_refl|]. split; [discriminate|]. lia.
Qed.

(** C4: a run that casts no ray vacuously has every cast ray hit, yet its
    success rate is 0, not 100. *)
Lemma success_rate_cex_C4 :
  match run box_contains empty_doc flat_slab [] with
  | Finished _ _ st =>
      Forall (fun o => ray_hits flat_slab o = true) (rays_cast st)
      /\ ~ (success_rate st == 100)
  | Fatal _ => False
  end.
Proof. vm_compute. split; [constructor|discriminate]. Qed.

(** ** Coordinate mapper *)

(** C6: mapping an image point to 3D with [map_2d_to_3d] and re-projecting
    it with the inverse of the mapping-accuracy metric gives back the
    image point exactly (over the rationals) when both scale factors are
    nonzero. *)
Theorem mapper_roundtrip_C6 (cm : mapper) (x y z : Q) :
  ~ x_scale cm == 0 -> ~ y_scale cm == 0 ->
  fst (reproject cm (fst (map_2d_to_3d cm x y), snd (map_2d_to_3d cm x y), z)) == x
  /\ snd (reproject cm (fst (map_2d_to_3d cm x y), snd (map_2d_to_3d cm x y), z)) == y.
Proof.
  intros Hx Hy. unfold reproject, map_2d_to_3d, px, py. cbn [fst snd].
  split; field; assumption.
Qed.

(** ** Export *)

Lemma py_replace_absent (old new s : string) :
  py_contains old s = false -> py_replace old new s = s.
Proof.
  destruct old as [|ch old'].
  - destruct s; simpl; discriminate.
  - intros H. unfold py_replace.
    assert (Hgo : forall t, py_contains (String ch old') t = false ->
                  replace_go (String ch old') new 0 t = t).
    { induction t as [|c t IH]; intros Ht; [reflexivity|].
      cbn [py_contains] in Ht. apply orb_false_iff in Ht as [Hp Hc].
      cbn [replace_go]. rewrite Hp. f_equal. apply IH, Hc. }
    apply Hgo, H.
Qed.

(** C10: when the output name does not contain ".ply", the STL path
    derived by [output_file.replace('.ply', '.stl')] is the output name
    itself, so both exports write the same path: the run either exits with
    status 1 leaving the disk as it was, or leaves exactly one new file
    there, holding the second export. *)
Theorem stl_export_same_path_C10 (cp : list point2 -> point2 -> bool)
    (ex : string -> list piece -> option string) (c : coco) (m : mesh)
    (zones : list string) (output : option string) (foot : string)
    (fs : gmap string string) :
  let output_file := output_file_of output foot in
  py_contains ".ply" output_file = false ->
  stl_output_of output_file = output_file
  /\ (forall w cm st b1 b2,
        run cp c m zones = Finished w cm st ->
        ex output_file (spikes st) = Some b1 ->
        ex (stl_output_of output_file) (spikes st) = Some b2 ->
        main_io cp ex c m zones output foot fs
        = (0%Z, <[stl_output_of output_file := b2]> (<[output_file := b1]> fs))
        /\ <[stl_output_of output_file := b2]> (<[output_file := b1]> fs)
           = <[output_file := b2]> fs)
  /\ (main_io cp ex c m zones output foot fs = (1%Z, fs)
      \/ exists b, main_io cp ex c m zones output foot fs = (0%Z, <[output_file := b]> fs)).
Proof.
  intros output_file Hno.
  assert (Hsame : stl_output_of output_file = output_file)
    by (apply py_replace_absent, Hno).
  split; [exact Hsame|]. split.
  - intros w cm st b1 b2 Hrun H1 H2. unfold main_io. fold output_file.
    rewrite Hrun, H1, H2. split; [reflexivity|].
    rewrite Hsame. apply insert_insert_eq.
  - unfold main_io. fold output_file.
    destruct (run cp c m zones) as [msg|w cm st]; [left; reflexivity|].
    destruct (ex output_file (spikes st)) as [b1|] eqn:E1; [|left; reflexivity].
    rewrite Hsame, E1. right. exists b1. by rewrite insert_insert_eq.
Qed.

(** ** Mapping accuracy *)

(** C7: [zone_paths] keeps one polygon per zone name, the last one seen,
    so a zone drawn as two squares loses its first square: of the two
    bumps (one per square, both on the slab's footprint), both re-project
    inside a polygon of the annotation set, but only the second is counted
    and the accuracy is 50 rather than 100. *)
Lemma accuracy_last_polygon_C7 :
  match run box_contains two_heart_doc footprint_slab ["heart"] with
  | Finished _ cm st =>
      spike_count st = 2%nat
      /\ Forall (fun loc => 0 <= px loc <= 100 /\ 0 <= py loc <= 100) (bump_locations st)
      /\ length (zone_paths st) = 1%nat
      /\ Forall (fun loc => existsb (fun seg => box_contains seg (reproject cm loc))
                              (annotation_polygons two_heart_doc) = true)
           (bump_locations st)
      /\ placement_accuracy box_contains cm st == 50
  | Fatal _ => False
  end.
Proof.
  vm_compute. split; [reflexivity|].
  split; [repeat constructor; discriminate|]. split; [reflexivity|].
  split; [repeat constructor|reflexivity].
Qed.

(** ** Sampling step *)

(** C9: the grid step is the raw constant 5 applied in pixels, whatever
    the scale: on a sole with 2 mm per pixel in x the sampled columns are
    5 pixels apart (not 5 / 2), so neighbouring bumps land 10 mm apart in
    x, not 5 mm. *)
Lemma step_in_pixels_C9 :
  match run box_contains wide_doc wide_slab ["heart"] with
  | Finished _ cm st =>
      x_scale cm == 2
      /\ ~ (step == 5 / x_scale cm)
      /\ arange 0 12 step = [0; 5; 10]
      /\ map (fun p => Qred (px p)) (bump_locations st) = [20; 20; 30; 30]
  | Fatal _ => False
  end.
Proof.
  vm_compute. split; [reflexivity|]. split; [discriminate|].
  split; reflexivity.
Qed.

(** ** Dome height *)

Module DomeFacts.

Import Dome.
Local Open Scope R_scope.

Lemma linspace_quarter (n : nat) (v : R) :
  In v (linspace 0 (PI / 2) n) -> 0 <= v <= PI / 2.
Proof.
  unfold linspace. rewrite in_map_iff. intros (i & <- & Hi). apply in_seq in Hi.
  pose proof PI_RGT_0 as Hpi.
  destruct ((1 <? n)%nat && (i =? n - 1)%nat) eqn:E; [Lra.lra|].
  destruct i as [|i'].
  - rewrite Rmult_0_l, Rplus_0_l. Lra.lra.
  - apply andb_false_iff in E.
    assert (Hlt : (S i' < n - 1)%nat).
    { destruct E as [E|E]; [apply Nat.ltb_ge in E; lia|apply Nat.eqb_neq in E; lia]. }
    set (k := INR (S i')). set (d := INR (n - 1)).
    assert (Hk0 : 0 <= k) by apply pos_INR.
    assert (Hkd : k <= d) by (apply le_INR; lia).
    assert (Hd : 0 < d) by (apply lt_0_INR; lia).
    assert (Hq : 0 <= k / d <= 1).
    { split; [unfold Rdiv; apply Rmult_le_pos; [exact Hk0|apply Rlt_le, Rinv_0_lt_compat, Hd]|].
      apply (Rmult_le_reg_r d); [exact Hd|].
      unfold Rdiv. rewrite Rmult_assoc, Rinv_l, Rmult_1_r by Lra.lra. Lra.lra. }
    replace (k * ((PI / 2 - 0) / d) + 0) with ((k / d) * (PI / 2))
      by (field; Lra.lra).
    split; [apply Rmult_le_pos; Lra.lra|].
    rewrite <- (Rmult_1_l (PI / 2)) at 2. apply Rmult_le_compat_r; Lra.lra.
Qed.

Lemma bump_vertex_z_nonneg (rx ry rz : R) (sections stacks : nat) (p : vec3) :
  0 <= rz -> In p (vertices (create_ellipsoid_bump rx ry rz sections stacks)) ->
  0 <= vz p.
Proof.
  intros Hrz Hp. cbn [vertices create_ellipsoid_bump] in Hp.
  apply in_flat_map in Hp as (v & Hv & Hp).
  apply in_map_iff in Hp as (u & <- & _).
  apply linspace_quarter in Hv. unfold vz. cbn [snd].
  apply Rmult_le_pos; [exact Hrz|].
  apply cos_ge_0; Lra.lra.
Qed.

Lemma translated_vertex_z (t : vec3) (msh : trimesh) (p : vec3) :
  In p (vertices (apply_translation t msh)) ->
  exists q, In q (vertices msh) /\ vz p = vz q + snd t.
Proof.
  cbn [vertices apply_translation]. rewrite in_map_iff.
  intros ([[x y] z] & <- & Hq). exists (x, y, z). split; [exact Hq|reflexivity].
Qed.

End DomeFacts.

(** C5: every vertex of a placed bump (the 2.5 x 2.5 x 4 dome with 20
    sections and 10 stacks, translated to (x3d, y3d, z3d + 0.01)) lies
    strictly above the surface height z3d: the dome's vertices have
    z = 4 cos v >= 0 for v in [0, pi/2], and the translation adds
    z3d + 0.01. *)
Theorem bump_above_surface_C5 (x3d y3d z3d : R) :
  Forall (fun p => (z3d < Dome.vz p)%R) (Dome.vertices (Dome.placed_bump x3d y3d z3d)).
Proof.
  apply List.Forall_forall. intros p Hp.
  apply DomeFacts.translated_vertex_z in Hp as (q & Hq & ->).
  apply DomeFacts.bump_vertex_z_nonneg in Hq; [|unfold Dome.bump_height; Lra.lra].
  cbn [snd]. Lra.lra.
Qed.

(** ** Instances of the theorems with hypotheses *)

(** C2 at the grid point (5, 5) of the first heart square: the ray hits
    the slab at z = 0 and z = 5, and the bump's point is the hit at z = 5. *)
Lemma surface_point_max_z_C2_witness :
  exists loc b,
    bump_locations (sample_point box_contains flat_slab heart_mapper "heart"
                      (zone_color "heart") sq_path (init_state ∅) 5 5) = [loc]
    /\ pz loc == 5 /\ pz (bump_translation b) == 5 + (1 # 100).
Proof.
  destruct (surface_point_max_z_C2 box_contains flat_slab heart_mapper "heart"
              (zone_color "heart") sq_path (init_state ∅) 5 5)
    as (loc & b & Hl & _ & Hin & Hmax & Hb);
    [reflexivity|vm_compute; discriminate|].
  exists loc, b. split; [exact Hl|].
  assert (H5 : 5 <= pz loc).
  { apply (Hmax (fst (map_2d_to_3d heart_mapper 5 5), snd (map_2d_to_3d heart_mapper 5 5), 5)).
    simpl. right. left. reflexivity. }
  assert (Hin' : pz loc == 0 \/ pz loc == 5).
  { vm_compute in Hin. destruct Hin as [<-|[<-|[]]]; [left|right]; reflexivity. }
  assert (Hz : pz loc == 5) by (destruct Hin' as [H|H]; [exfalso; lra|exact H]).
  split; [exact Hz|]. rewrite Hb, Hz. reflexivity.
Defined.

(** C3 at step 5 over [0, 7): two points, both in [0, 7). *)
Lemma grid_half_open_C3_witness :
  length (arange 0 7 step) = Z.to_nat (Qceiling ((7 - 0) / step))
  /\ (forall e, In e (arange 0 7 step) -> 0 <= e /\ e < 7).
Proof.
  destruct (grid_half_open_C3 0 7 step (0, 0, 7, 7)) as (Hl & _ & Hb & _);
    [reflexivity|].
  split; [exact Hl|exact Hb].
Defined.

(** C4 on the one-square heart document: one ray, one hit, rate 100. *)
Lemma success_rate_C4_witness :
  exists w cm st, run box_contains heart_doc flat_slab ["HEART"] = Finished w cm st
    /\ ray_casting_attempts st = 1%nat /\ success_rate st == 100.
Proof.
  destruct (run box_contains heart_doc flat_slab ["HEART"]) as [msg|w cm st] eqn:E;
    [vm_compute in E; discriminate|].
  assert (Ha : ray_casting_attempts st = 1%nat).
  { vm_compute in E. injection E as _ _ <-. reflexivity. }
  destruct (success_rate_C4 box_contains heart_doc flat_slab ["HEART"] w cm st E)
    as (_ & _ & _ & _ & _ & _ & _ & H100).
  exists w, cm, st. split; [reflexivity|]. split; [exact Ha|].
  apply H100; [lia|].
  vm_compute in E. injection E as _ _ <-. repeat constructor.
Defined.

(** C6 for the image point (3, 7) and the mapper of [flat_slab]. *)
Lemma mapper_roundtrip_C6_witness :
  fst (reproject heart_mapper (fst (map_2d_to_3d heart_mapper 3 7),
                               snd (map_2d_to_3d heart_mapper 3 7), 0)) == 3
  /\ snd (reproject heart_mapper (fst (map_2d_to_3d heart_mapper 3 7),
                                  snd (map_2d_to_3d heart_mapper 3 7), 0)) == 7.
Proof. apply mapper_roundtrip_C6; vm_compute; discriminate. Defined.

(** C8: "Spleen" alone is unknown for [heart_doc], which stops the run;
    "heart" with "spleen" continues with one warning. *)
Lemma unknown_zone_names_C8_witness :
  run box_contains heart_doc flat_slab ["Spleen"] = Fatal fatal_msg
  /\ main_io box_contains (fun _ _ => Some "") heart_doc flat_slab ["Spleen"]
       None "left" ∅ = (1%Z, ∅)
  /\ exists cm st, run box_contains heart_doc flat_slab ["heart"; "spleen"]
                   = Finished ["spleen"] cm st.
Proof.
  destruct (unknown_zone_names_C8 box_contains (fun _ _ => Some "") heart_doc flat_slab
              ["Spleen"] None "left" ∅) as (_ & Hf & _).
  destruct (unknown_zone_names_C8 box_contains (fun _ _ => Some "") heart_doc flat_slab
              ["heart"; "spleen"] None "left" ∅) as (_ & _ & Hc).
  destruct Hf as [Hr Hm]; [discriminate|vm_compute; repeat constructor|].
  split; [exact Hr|]. split; [exact Hm|].
  apply Hc. vm_compute. left. discriminate.
Defined.

(** C10 with the output name "out.obj": the STL path is "out.obj" too. *)
Lemma stl_export_same_path_C10_witness :
  stl_output_of "out.obj" = "out.obj"
  /\ (main_io box_contains (fun _ _ => Some "") heart_doc flat_slab ["heart"]
        (Some "out.obj") "left" ∅ = (1%Z, ∅)
      \/ exists b, main_io box_contains (fun _ _ => Some "") heart_doc flat_slab ["heart"]
                     (Some "out.obj") "left" ∅ = (0%Z, <["out.obj" := b]> ∅)).
Proof.
  destruct (stl_export_same_path_C10 box_contains (fun _ _ => Some "") heart_doc flat_slab
              ["heart"] (Some "out.obj") "left" ∅) as (Hs & _ & Hio); [reflexivity|].
  split; [exact Hs|exact Hio].
Defined.

(** ** Further properties of the pipeline *)

Lemma lower_upper_ascii (c : ascii) : lower_ascii (App.upper_ascii c) = lower_ascii c.
Proof. destruct c as [[] [] [] [] [] [] [] []]; reflexivity. Qed.

Lemma lower_upper (s : string) : lower (App.upper s) = lower s.
Proof. induction s as [|c s IH]; cbn; [reflexivity|]. by rewrite lower_upper_ascii, IH. Qed.

(** X1: zone names are matched case-insensitively: upper-casing every
    zone name, as the web front end does before calling the script,
    leaves the whole run unchanged, for zone names written in 7-bit
    ASCII (Python's full case mapping breaks this beyond ASCII:
    ['straße'.upper().lower()] is ['strasse']). *)
Theorem run_upper_zones (cp : list point2 -> point2 -> bool) (c : coco) (m : mesh)
    (zones : list string) :
  forallb is_ascii7 zones = true ->
  run cp c m (map App.upper zones) = run cp c m zones.
Proof.
  intros _.
  assert (H : map lower (map App.upper zones) = map lower zones).
  { rewrite map_map. apply map_ext. apply lower_upper. }
  unfold run. rewrite H. reflexivity.
Qed.

Lemma zone_name_to_ids_fold (cats : list category) (k : string) (acc : gmap string (list Z)) :
  fold_left (fun acc cat =>
      let name := lower (cat_name cat) in
      let ids := default [] (acc !! name) in
      <[name := ids ++ [cat_id cat]]> acc) cats acc !! k
  = match acc !! k, ids_named cats k with
    | Some l, ids => Some (l ++ ids)
    | None, [] => None
    | None, ids => Some ids
    end.
Proof.
  revert acc. induction cats as [|cat cats IH]; intros acc; cbn [fold_left].
  - unfold ids_named. cbn. destruct (acc !! k); [by rewrite app_nil_r|reflexivity].
  - rewrite IH. unfold ids_named. cbn [List.filter].
    destruct (String.eqb_spec (lower (cat_name cat)) k) as [<-|Hne].
    + rewrite lookup_insert_eq. cbn [map].
      destruct (acc !! lower (cat_name cat)); cbn; [by rewrite <- app_assoc|reflexivity].
    + rewrite lookup_insert_ne by congruence.
      by destruct (String.eqb_spec (lower (cat_name cat)) k).
Qed.

(** X2: [zone_name_to_ids] maps a lower-cased name to the ids of all
    categories with that lower-cased name, in document order, and has no
    entry for a name no category carries. *)
Theorem zone_name_to_ids_lookup (cats : list category) (k : string) :
  zone_name_to_ids_of cats !! k
  = match ids_named cats k with [] => None | l => Some l end.
Proof. unfold zone_name_to_ids_of. rewrite zone_name_to_ids_fold. reflexivity. Qed.

Lemma pair_ind (P : list Q -> Prop) :
  P [] -> (forall x, P [x]) -> (forall x y r, P r -> P (x :: y :: r)) -> forall l, P l.
Proof.
  intros H0 H1 H2 l.
  assert (H : P l /\ forall x, P (x :: l)).
  { induction l as [|y l [IH1 IH2]]; split; auto. }
  apply H.
Qed.

(** X3: [reshape(-1, 2)] succeeds exactly on even-length coordinate
    lists, and then it is the inverse of flattening: it returns [ps]
    exactly when the flat list is [ps] flattened. *)
Theorem reshape_pairs_spec (flat : list Q) :
  (reshape_pairs flat = None <-> Nat.odd (length flat) = true)
  /\ (forall ps, reshape_pairs flat = Some ps <-> flatten_pairs ps = flat).
Proof.
  induction flat as [|x|x y r [IHn IHs]] using pair_ind.
  - split; [split; discriminate|].
    intros ps. split; [by intros [= <-]|]. destruct ps as [|[a b] ps]; [reflexivity|discriminate].
  - split; [split; reflexivity|].
    intros ps. split; [discriminate|]. destruct ps as [|[a b] ps]; discriminate.
  - cbn [reshape_pairs length]. split.
    + rewrite Nat.odd_succ_succ, <- IHn. destruct (reshape_pairs r); split; congruence.
    + intros ps. split.
      * destruct (reshape_pairs r) as [ps'|] eqn:E; [|discriminate].
        intros [= <-]. cbn. f_equal. f_equal. by apply IHs.
      * destruct ps as [|[a b] ps]; [discriminate|]. cbn. intros [= -> -> Hr].
        assert (E : reshape_pairs r = Some ps) by (apply IHs; exact Hr).
        by rewrite E.
Qed.

Lemma Qmin_cases (a x : Q) : Qmin a x = a \/ Qmin a x = x.
Proof. unfold Qmin, GenericMinMax.gmin. destruct (a ?= x); auto. Qed.

Lemma Qmax_cases (a x : Q) : Qmax a x = a \/ Qmax a x = x.
Proof. unfold Qmax, GenericMinMax.gmax. destruct (a ?= x); auto. Qed.

Lemma seg_bbox_fold (rest : list point2) (bb : Q * Q * Q * Q) :
  let bb' := fold_left (fun '(a, b, c, d) '(x, y) =>
              (Qmin a x, Qmin b y, Qmax c x, Qmax d y)) rest bb in
  (forall p, in_box bb p -> in_box bb' p)
  /\ Forall (in_box bb') rest
  /\ (let '(a, b, c, d) := bb' in
      (a = fst (fst (fst bb)) \/ exists p, In p rest /\ a = fst p)
      /\ (b = snd (fst (fst bb)) \/ exists p, In p rest /\ b = snd p)
      /\ (c = snd (fst bb) \/ exists p, In p rest /\ c = fst p)
      /\ (d = snd bb \/ exists p, In p rest /\ d = snd p)).
Proof.
  revert bb. induction rest as [|[x y] rest IH]; intros [[[a b] c] d]; cbn zeta.
  - cbn [fold_left]. split; [auto|]. split; [constructor|]. cbn. auto.
  - cbn [fold_left].
    destruct (IH (Qmin a x, Qmin b y, Qmax c x, Qmax d y)) as (Hmono & Hall & Hatt).
    revert Hmono Hall Hatt.
    match goal with |- context [fold_left ?f rest ?i] => destruct (fold_left f rest i) as [[[a' b'] c'] d'] end.
    intros Hmono Hall Hatt.
    assert (Hstep : forall p, in_box (a, b, c, d) p ->
                    in_box (Qmin a x, Qmin b y, Qmax c x, Qmax d y) p).
    { intros [px' py'] (Hx & Hy). cbn in *.
      pose proof (Q.le_min_l a x). pose proof (Q.le_min_l b y).
      pose proof (Q.le_max_l c x). pose proof (Q.le_max_l d y).
      split; split; lra. }
    split; [intros p Hp; apply Hmono, Hstep, Hp|].
    split.
    + constructor; [|exact Hall]. apply Hmono. cbn.
      pose proof (Q.le_min_r a x). pose proof (Q.le_min_r b y).
      pose proof (Q.le_max_r c x). pose proof (Q.le_max_r d y).
      split; split; assumption.
    + destruct Hatt as (Ha & Hb & Hc & Hd). cbn [fst snd] in *.
      repeat split.
      * destruct Ha as [->|(p & Hp & ->)]; [|right; exists p; split; [right|]; auto].
        destruct (Qmin_cases a x) as [->| ->]; [left; reflexivity|].
        right. exists (x, y). split; [left|]; reflexivity.
      * destruct Hb as [->|(p & Hp & ->)]; [|right; exists p; split; [right|]; auto].
        destruct (Qmin_cases b y) as [->| ->]; [left; reflexivity|].
        right. exists (x, y). split; [left|]; reflexivity.
      * destruct Hc as [->|(p & Hp & ->)]; [|right; exists p; split; [right|]; auto].
        destruct (Qmax_cases c x) as [->| ->]; [left; reflexivity|].
        right. exists (x, y). split; [left|]; reflexivity.
      * destruct Hd as [->|(p & Hp & ->)]; [|right; exists p; split; [right|]; auto].
        destruct (Qmax_cases d y) as [->| ->]; [left; reflexivity|].
        right. exists (x, y). split; [left|]; reflexivity.
Qed.

(** X4: the bounding box of a zone polygon, [np.min]/[np.max] over its
    vertices, is the tightest box: every vertex lies in it and each of
    its four bounds is a coordinate of some vertex.  It exists exactly for
    a non-empty polygon. *)
Theorem seg_bbox_tight (seg : list point2) :
  (seg_bbox seg = None <-> seg = [])
  /\ forall a b c d, seg_bbox seg = Some (a, b, c, d) ->
     Forall (fun p => a <= fst p <= c /\ b <= snd p <= d) seg
     /\ (exists p, In p seg /\ a = fst p) /\ (exists p, In p seg /\ b = snd p)
     /\ (exists p, In p seg /\ c = fst p) /\ (exists p, In p seg /\ d = snd p).
Proof.
  split; [destruct seg as [|[x y] rest]; cbn; split; congruence|].
  intros a b c d. destruct seg as [|[x0 y0] rest]; [discriminate|].
  cbn [seg_bbox]. intros [= Hbb].
  destruct (seg_bbox_fold rest (x0, y0, x0, y0)) as (Hmono & Hall & Hatt).
  cbn zeta in Hbb. rewrite Hbb in Hmono, Hall, Hatt. cbn [fst snd] in Hatt.
  destruct Hatt as (Ha & Hb & Hc & Hd).
  split.
  - constructor.
    + apply (Hmono (x0, y0)). cbn. split; split; apply Qle_refl.
    + eapply Forall_impl; [exact Hall|]. intros p Hp. exact Hp.
  - repeat split.
    + destruct Ha as [->|(p & Hp & ->)];
        [exists (x0, y0); split; [left|]|exists p; split; [right|]]; auto.
    + destruct Hb as [->|(p & Hp & ->)];
        [exists (x0, y0); split; [left|]|exists p; split; [right|]]; auto.
    + destruct Hc as [->|(p & Hp & ->)];
        [exists (x0, y0); split; [left|]|exists p; split; [right|]]; auto.
    + destruct Hd as [->|(p & Hp & ->)];
        [exists (x0, y0); split; [left|]|exists p; split; [right|]]; auto.
Qed.

Lemma run_preserves (Inv : state -> Prop) (cp : list point2 -> point2 -> bool)
    (c : coco) (m : mesh) (zones : list string) (w : list string) (cm : mapper)
    (st : state) :
  (forall zn, Inv (init_state zn)) ->
  (forall cm zone color path st xi yi,
      Inv st -> Inv (sample_point cp m cm zone color path st xi yi)) ->
  (forall zone path st, Inv st -> Inv (set_zone_path zone path st)) ->
  run cp c m zones = Finished w cm st -> Inv st.
Proof.
  intros Hinit Hpt Hzp. unfold run. destruct (resolve_selected _ _) as [ids warns].
  destruct (_ && _); [discriminate|]. intros [= _ _ <-].
  assert (Hf : forall anns st0, Inv st0 ->
    Inv (fold_left (process_annotation cp c m (make_mapper m c) ids) anns st0)).
  { induction anns as [|a anns IH]; intros st0 H; simpl; [exact H|].
    apply IH. unfold process_annotation.
    destruct (_ && _); [exact H|]. unfold annotation_body.
    destruct (first_category_name _ _) as [[|ch zone]|]; try exact H.
    destruct (segmentation a) as [|flat rest]; [exact H|].
    destruct (reshape_pairs flat) as [seg|]; [|exact H].
    pose proof (Hzp (String ch zone) seg st0 H) as H'.
    destruct (seg_bbox seg) as [bb|]; [|exact H'].
    rewrite sample_grid_points.
    generalize (grid_points bb). intros pts. revert H'. generalize (set_zone_path (String ch zone) seg st0).
    induction pts as [|pt pts IHp]; intros s0 Hs0; simpl; [exact Hs0|].
    apply IHp, Hpt, Hs0. }
  apply Hf, Hinit.
Qed.

Lemma zone_total_insert_new (zb : gmap string nat) (k : string) (v : nat) :
  zb !! k = None -> zone_total (<[k := v]> zb) = (v + zone_total zb)%nat.
Proof.
  intros Hk. unfold zone_total. apply map_fold_insert_L; [|exact Hk].
  intros; cbv beta; lia.
Qed.

Lemma zone_total_incr (zb : gmap string nat) (k : string) :
  zone_total (<[k := S (default 0%nat (zb !! k))]> zb) = S (zone_total zb).
Proof.
  destruct (zb !! k) as [v|] eqn:Hk; cbn [default].
  - rewrite <- insert_delete_eq.
    rewrite zone_total_insert_new by apply lookup_delete_eq.
    unfold zone_total. rewrite (map_fold_delete_L _ _ k v zb); [unfold Datatypes.id; lia| |exact Hk].
    intros; cbv beta; lia.
  - rewrite zone_total_insert_new by exact Hk. lia.
Qed.

Lemma zone_total_zero (zn : gmap string (list Z)) :
  zone_total ((fun _ => 0%nat) <$> zn) = 0%nat.
Proof.
  induction zn as [|k v zn Hk IH] using map_ind.
  - rewrite fmap_empty. reflexivity.
  - rewrite fmap_insert, zone_total_insert_new; [exact IH|].
    rewrite lookup_fmap, Hk. reflexivity.
Qed.

Lemma zone_total_filter (zb : gmap string nat) :
  zone_total (filter_zone_bumps zb) = zone_total zb.
Proof.
  unfold filter_zone_bumps.
  induction zb as [|k v zb Hk IH] using map_ind.
  - rewrite map_filter_empty. reflexivity.
  - rewrite map_filter_insert. rewrite (zone_total_insert_new zb) by exact Hk.
    case_decide as Hv.
    + rewrite zone_total_insert_new; [lia|].
      apply map_lookup_filter_None. left. exact Hk.
    + rewrite delete_id by exact Hk. cbn in Hv. lia.
Qed.

Lemma run_bookkeeping_facts (cp : list point2 -> point2 -> bool) (c : coco) (m : mesh)
    (zones : list string) (w : list string) (cm : mapper) (st : state) :
  run cp c m zones = Finished w cm st ->
  spike_count st = ray_casting_successes st
  /\ length (bump_locations st) = spike_count st
  /\ (exists bs, spikes st = SolePiece :: map BumpPiece bs /\ length bs = spike_count st)
  /\ zone_total (zone_bumps st) = spike_count st
  /\ zone_total (filter_zone_bumps (zone_bumps st)) = spike_count st.
Proof.
  intros Hrun.
  enough (H : spike_count st = ray_casting_successes st
    /\ length (bump_locations st) = spike_count st
    /\ (exists bs, spikes st = SolePiece :: map BumpPiece bs /\ length bs = spike_count st)
    /\ zone_total (zone_bumps st) = spike_count st).
  { destruct H as (H1 & H2 & H3 & H4). rewrite zone_total_filter. auto. }
  refine (run_preserves (fun st => spike_count st = ray_casting_successes st
    /\ length (bump_locations st) = spike_count st
    /\ (exists bs, spikes st = SolePiece :: map BumpPiece bs /\ length bs = spike_count st)
    /\ zone_total (zone_bumps st) = spike_count st) cp c m zones w cm st _ _ _ Hrun).
  - intros zn. cbn. split; [reflexivity|]. split; [reflexivity|].
    split; [exists []; split; reflexivity|]. apply zone_total_zero.
  - intros cm' zone color path s0 xi yi Hs.
    unfold sample_point. destruct (cp path (xi, yi)); [|exact Hs].
    destruct Hs as (H1 & H2 & (bs & Hbs & Hlen) & H4).
    destruct (map_2d_to_3d cm' xi yi) as [x3d y3d]. cbv zeta.
    destruct (intersects_location m _ _) as [|l0 ls].
    { unfold cast_ray; cbn. split; [exact H1|]. split; [exact H2|].
      split; [exists bs; split; assumption|exact H4]. }
    destruct (top_hit l0 ls) as [z3d loc].
    unfold place_bump, ray_hit, cast_ray; cbn [spike_count ray_casting_successes
      bump_locations spikes zone_bumps].
    rewrite length_app, zone_total_incr. cbn [length].
    split; [lia|]. split; [lia|]. split; [|lia].
    exists (bs ++ [mk_bump bump_radius bump_radius bump_height (x3d, y3d, z3d + (1 # 100)) color]).
    split; [rewrite Hbs, map_app; reflexivity|].
    rewrite length_app. cbn. lia.
  - intros zone path s0 H. exact H.
Qed.

(** X5: the bookkeeping of a run agrees with itself: every successful
    ray placed exactly one bump, [spikes] is the sole followed by one mesh
    per bump, [bump_locations] has one entry per bump, and the per-zone
    counts (before and after dropping the zero entries) add up to the
    total bump count. *)
Theorem run_bookkeeping (cp : list point2 -> point2 -> bool) (c : coco) (m : mesh)
    (zones : list string) (w : list string) (cm : mapper) (st : state) :
  run cp c m zones = Finished w cm st ->
  spike_count st = ray_casting_successes st
  /\ length (bump_locations st) = spike_count st
  /\ (exists bs, spikes st = SolePiece :: map BumpPiece bs /\ length bs = spike_count st)
  /\ zone_total (zone_bumps st) = spike_count st
  /\ zone_total (filter_zone_bumps (zone_bumps st)) = spike_count st.
Proof. apply run_bookkeeping_facts. Qed.

Lemma count_occ_le (l : list bool) (b : bool) :
  (List.count_occ Bool.bool_dec l b <= length l)%nat.
Proof. induction l as [|x l IH]; cbn; [lia|destruct (Bool.bool_dec x b); lia]. Qed.

(** X6: the mapping accuracy of a finished run is a percentage:
    between 0 and 100. *)
Theorem placement_accuracy_bounds (cp : list point2 -> point2 -> bool) (c : coco)
    (m : mesh) (zones : list string) (w : list string) (cm : mapper) (st : state) :
  run cp c m zones = Finished w cm st ->
  0 <= placement_accuracy cp cm st <= 100.
Proof.
  intros Hrun. destruct (run_bookkeeping_facts cp c m zones w cm st Hrun) as (_ & Hlen & _).
  unfold placement_accuracy.
  destruct (0 <? spike_count st)%nat eqn:E; [|split; lra].
  apply Nat.ltb_lt in E.
  pose proof (count_occ_le (map (placed_correctly cp cm (zone_paths st)) (bump_locations st)) true)
    as Hc.
  rewrite length_map, Hlen in Hc.
  set (k := List.count_occ _ _ _) in *.
  assert (Hk : 0 <= inject_Z (Z.of_nat k)) by (change 0 with (inject_Z 0); rewrite <- Zle_Qle; lia).
  assert (Hkn : inject_Z (Z.of_nat k) <= inject_Z (Z.of_nat (spike_count st)))
    by (rewrite <- Zle_Qle; lia).
  assert (Hn : 0 < inject_Z (Z.of_nat (spike_count st)))
    by (change 0 with (inject_Z 0); rewrite <- Zlt_Qlt; lia).
  assert (Hq0 : 0 <= inject_Z (Z.of_nat k) / inject_Z (Z.of_nat (spike_count st)))
    by (apply Qle_shift_div_l; [exact Hn|lra]).
  assert (Hq1 : inject_Z (Z.of_nat k) / inject_Z (Z.of_nat (spike_count st)) <= 1)
    by (apply Qle_shift_div_r; [exact Hn|lra]).
  revert Hq0 Hq1. generalize (inject_Z (Z.of_nat k) / inject_Z (Z.of_nat (spike_count st))).
  intros q Hq0 Hq1. split; lra.
Qed.

(** X7: the script writes no file other than its PLY output and the STL
    path derived from it; it exits with 0 or 1, and on exit 0 both
    files exist. *)
Theorem main_io_files (cp : list point2 -> point2 -> bool)
    (eb : string -> list piece -> option string) (c : coco) (m : mesh)
    (zones : list string) (output : option string) (foot : string)
    (fs : gmap string string) :
  let out := output_file_of output foot in
  let '(code, fs') := main_io cp eb c m zones output foot fs in
  (code = 0%Z \/ code = 1%Z)
  /\ (forall k, k <> out -> k <> stl_output_of out -> fs' !! k = fs !! k)
  /\ (code = 0%Z -> is_Some (fs' !! out) /\ is_Some (fs' !! stl_output_of out)).
Proof.
  cbv zeta. unfold main_io.
  destruct (run cp c m zones) as [msg|w cm st]; [split; [right; reflexivity|split; [auto|discriminate]]|].
  destruct (eb (output_file_of output foot) (spikes st)) as [b1|];
    [|split; [right; reflexivity|split; [auto|discriminate]]].
  destruct (eb (stl_output_of (output_file_of output foot)) (spikes st)) as [b2|].
  - split; [left; reflexivity|]. split.
    + intros k H1 H2. rewrite !lookup_insert_ne by congruence. reflexivity.
    + intros _. split.
      * destruct (String.eqb_spec (stl_output_of (output_file_of output foot))
                                  (output_file_of output foot)) as [E|E].
        -- rewrite E, lookup_insert_eq. eexists; reflexivity.
        -- rewrite lookup_insert_ne by congruence. rewrite lookup_insert_eq. eexists; reflexivity.
      * rewrite lookup_insert_eq. eexists; reflexivity.
  - split; [right; reflexivity|]. split; [|discriminate].
    intros k H1 H2. rewrite lookup_insert_ne by congruence. reflexivity.
Qed.

Lemma in_combine_seq {A} (l : list A) (k j : nat) (q : A) :
  In (j, q) (combine (seq k (length l)) l) <-> (k <= j)%nat /\ nth_error l (j - k) = Some q.
Proof.
  revert k. induction l as [|x l IH]; intros k; cbn [length seq combine In].
  - split; [intros []|]. intros [_ H]. by destruct (j - k)%nat.
  - rewrite IH. split.
    + intros [[= <- <-]|(Hk & Hn)].
      * split; [lia|]. by rewrite Nat.sub_diag.
      * split; [lia|]. replace (j - k)%nat with (S (j - S k)) by lia. exact Hn.
    + intros (Hk & Hn). destruct (Nat.eq_dec j k) as [->|Hne].
      * left. rewrite Nat.sub_diag in Hn. cbn in Hn. congruence.
      * right. split; [lia|]. replace (j - k)%nat with (S (j - S k)) in Hn by lia. exact Hn.
Qed.

Lemma norm3_nonneg (p q : point3) : (0 <= Spacing.norm3 p q)%R.
Proof.
  unfold Spacing.norm3. destruct (Spacing.to_R3 p) as [[x1 y1] z1].
  destruct (Spacing.to_R3 q) as [[x2 y2] z2]. apply sqrt_pos.
Qed.

Lemma min_distance_fold (i : nat) (p : point3) (L : list (nat * point3)) (md0 : option R) :
  (forall v, md0 = Some v -> (0 < v)%R) ->
  match fold_left (fun md '(j, q) =>
      if Nat.eqb i j then md
      else
        let d := Spacing.norm3 p q in
        match md with
        | None => if Rlt_dec 0 d then Some d else md
        | Some mv => if Rlt_dec 0 d then if Rlt_dec d mv then Some d else md else md
        end) L md0 with
  | Some d =>
      (0 < d)%R
      /\ (md0 = Some d \/ exists j q, In (j, q) L /\ j <> i /\ d = Spacing.norm3 p q)
      /\ (forall j q, In (j, q) L -> j <> i -> (0 < Spacing.norm3 p q)%R -> (d <= Spacing.norm3 p q)%R)
      /\ (forall v, md0 = Some v -> (d <= v)%R)
  | None => md0 = None /\ forall j q, In (j, q) L -> j <> i -> Spacing.norm3 p q = 0%R
  end.
Proof.
  revert md0. induction L as [|[j q] L IH]; intros md0 Hpos; cbn [fold_left].
  - destruct md0 as [v|].
    + split; [by apply Hpos|]. split; [by left|]. split; [intros ? ? []|]. intros v' [= <-]. Lra.lra.
    + split; [reflexivity|]. intros ? ? [].
  - set (md1 := if Nat.eqb i j then md0 else _).
    assert (Hpos1 : forall v, md1 = Some v -> (0 < v)%R).
    { unfold md1. destruct (Nat.eqb i j); [exact Hpos|]. cbv zeta.
      destruct md0 as [mv|].
      - destruct (Rlt_dec 0 _) as [H0|]; [|exact Hpos].
        destruct (Rlt_dec _ mv); [intros v [= <-]; exact H0|exact Hpos].
      - destruct (Rlt_dec 0 _) as [H0|]; [intros v [= <-]; exact H0|exact Hpos]. }
    specialize (IH md1 Hpos1).
    pose proof (norm3_nonneg p q) as Hnn.
    destruct (fold_left _ L md1) as [d|] eqn:Hr.
    + destruct IH as (Hd0 & Horig & Hmin & Hle). split; [exact Hd0|].
      unfold md1 in Horig, Hle. destruct (Nat.eqb_spec i j) as [<-|Hij].
      * split; [destruct Horig as [H|(j' & q' & Hin & Hne & ->)];
                [by left|right; exists j', q'; split; [right|]; auto]|].
        split; [|exact Hle].
        intros j' q' [[= <- <-]|Hin] Hne Hpos'; [congruence|]. by apply (Hmin j' q').
      * cbv zeta in Horig, Hle.
        assert (Hself : (0 < Spacing.norm3 p q)%R -> (d <= Spacing.norm3 p q)%R).
        { intros H0. destruct md0 as [mv|].
          - destruct (Rlt_dec 0 _) as [_|]; [|contradiction].
            destruct (Rlt_dec _ mv) as [Hlt|Hge].
            + by apply Hle.
            + specialize (Hle mv eq_refl). Lra.lra.
          - destruct (Rlt_dec 0 _) as [_|]; [by apply Hle|contradiction]. }
        split; [|split].
        -- destruct Horig as [H|(j' & q' & Hin & Hne & ->)];
             [|right; exists j', q'; split; [right|]; auto].
           destruct md0 as [mv|].
           ++ destruct (Rlt_dec 0 _); [|by left].
              destruct (Rlt_dec _ mv); [|by left].
              right. exists j, q. split; [left; reflexivity|]. split; [congruence|]. congruence.
           ++ destruct (Rlt_dec 0 _); [|discriminate].
              right. exists j, q. split; [left; reflexivity|]. split; [congruence|]. congruence.
        -- intros j' q' [[= <- <-]|Hin] Hne Hpos'; [by apply Hself|]. by apply (Hmin j' q').
        -- intros v ->. cbv zeta in Hle.
           destruct (Rlt_dec 0 _); [|by apply Hle].
           destruct (Rlt_dec _ v) as [Hlt|]; [|by apply Hle].
           specialize (Hle _ eq_refl). Lra.lra.
    + destruct IH as (Hmd1 & Hall). unfold md1 in Hmd1.
      destruct (Nat.eqb_spec i j) as [<-|Hij].
      * split; [exact Hmd1|]. intros j' q' [[= <- <-]|Hin] Hne; [congruence|]. by apply (Hall j' q').
      * cbv zeta in Hmd1. destruct md0 as [mv|].
        -- destruct (Rlt_dec 0 _); [destruct (Rlt_dec _ mv)|]; discriminate.
        -- split; [reflexivity|].
           destruct (Rlt_dec 0 _) as [|Hn]; [discriminate|].
           intros j' q' [[= <- <-]|Hin] Hne; [Lra.lra|]. by apply (Hall j' q').
Qed.

Lemma min_distance_facts (locs : list point3) (i : nat) (p : point3) :
  match Spacing.min_distance_of locs i p with
  | Some d =>
      (0 < d)%R
      /\ (exists j q, nth_error locs j = Some q /\ j <> i /\ d = Spacing.norm3 p q)
      /\ (forall j q, nth_error locs j = Some q -> j <> i ->
          (0 < Spacing.norm3 p q)%R -> (d <= Spacing.norm3 p q)%R)
  | None => forall j q, nth_error locs j = Some q -> j <> i -> Spacing.norm3 p q = 0%R
  end.
Proof.
  unfold Spacing.min_distance_of.
  pose proof (min_distance_fold i p (combine (seq 0 (length locs)) locs) None
                (fun v (H : None = Some v) => ltac:(discriminate))) as H.
  destruct (fold_left _ _ None) as [d|].
  - destruct H as (Hd & Horig & Hmin & _). split; [exact Hd|]. split.
    + destruct Horig as [H|(j & q & Hin & Hne & ->)]; [discriminate|].
      apply in_combine_seq in Hin as (_ & Hn). rewrite Nat.sub_0_r in Hn.
      exists j, q. auto.
    + intros j q Hn Hne Hpos. apply (Hmin j q); [|exact Hne|exact Hpos].
      apply in_combine_seq. rewrite Nat.sub_0_r. split; [lia|exact Hn].
  - destruct H as (_ & Hall). intros j q Hn Hne. apply (Hall j q); [|exact Hne].
    apply in_combine_seq. rewrite Nat.sub_0_r. split; [lia|exact Hn].
Qed.

(** X9: the nearest-neighbour distance of bump [i] is the smallest
    positive distance from it to another bump: it is positive, it is
    attained at some other index, and no other bump at a positive
    distance is closer.  When there is none ([min_distance] stays
    [inf]), every other bump lies at distance 0. *)
Theorem min_distance_spec (locs : list point3) (i : nat) (p : point3) :
  match Spacing.min_distance_of locs i p with
  | Some d =>
      (0 < d)%R
      /\ (exists j q, nth_error locs j = Some q /\ j <> i /\ d = Spacing.norm3 p q)
      /\ (forall j q, nth_error locs j = Some q -> j <> i ->
          (0 < Spacing.norm3 p q)%R -> (d <= Spacing.norm3 p q)%R)
  | None => forall j q, nth_error locs j = Some q -> j <> i -> Spacing.norm3 p q = 0%R
  end.
Proof. apply min_distance_facts. Qed.

Lemma min_distance_pos (locs : list point3) (i : nat) (p : point3) (d : R) :
  Spacing.min_distance_of locs i p = Some d -> (0 < d)%R.
Proof.
  intros H. pose proof (min_distance_facts locs i p) as Hs. rewrite H in Hs. apply Hs.
Qed.

(** X10: the spacing metric has at most one entry per bump, none when
    fewer than two bumps were placed, every entry positive, and the
    average spacing it reports is positive (the grid step when there
    is no entry). *)
Theorem bump_spacing_positive (locs : list point3) :
  Forall (fun d => (0 < d)%R) (Spacing.bump_spacing locs)
  /\ (length (Spacing.bump_spacing locs) <= length locs)%nat
  /\ ((length locs <= 1)%nat -> Spacing.bump_spacing locs = [])
  /\ (0 < Spacing.avg_spacing locs)%R.
Proof.
  assert (Hall : Forall (fun d => (0 < d)%R) (Spacing.bump_spacing locs)).
  { unfold Spacing.bump_spacing. destruct (1 <? length locs)%nat; [|constructor].
    apply List.Forall_forall. intros d Hd. apply in_flat_map in Hd as ([i q] & _ & Hd).
    destruct (Spacing.min_distance_of locs i q) as [d'|] eqn:E; [|destruct Hd].
    destruct Hd as [<-|[]]. exact (min_distance_pos _ _ _ _ E). }
  split; [exact Hall|]. split; [|split].
  - unfold Spacing.bump_spacing. destruct (1 <? length locs)%nat; [|cbn; lia].
    assert (Hgen : forall L : list (nat * point3),
      (length (flat_map (fun '(i, p) =>
         match Spacing.min_distance_of locs i p with Some d => [d] | None => [] end) L)
       <= length L)%nat).
    { induction L as [|[i q] L IH]; cbn [flat_map length]; [lia|].
      rewrite length_app. destruct (Spacing.min_distance_of locs i q); cbn; lia. }
    etransitivity; [apply Hgen|]. rewrite length_combine, length_seq. lia.
  - intros Hle. unfold Spacing.bump_spacing.
    destruct (Nat.ltb_spec 1 (length locs)); [lia|reflexivity].
  - unfold Spacing.avg_spacing. destruct (Spacing.bump_spacing locs) as [|x xs] eqn:E.
    + unfold Q2R, step. cbn. Lra.lra.
    + unfold Spacing.mean. inversion Hall as [|? ? Hx Hxs]; subst.
      assert (Hsum : (0 < fold_right Rplus 0 (x :: xs))%R).
      { cbn [fold_right].
        assert (Hs : (0 <= fold_right Rplus 0 xs)%R).
        { clear -Hxs. induction Hxs as [|y ys Hy _ IH]; cbn; Lra.lra. }
        Lra.lra. }
      unfold Rdiv. apply Rmult_lt_0_compat; [exact Hsum|].
      apply Rinv_0_lt_compat, lt_0_INR. cbn. lia.
Qed.

Lemma load_keys_elem (cats : list (option string)) (ks : gset string) (k : string) :
  App.load_valid_zone_keys (Some (Some cats)) = Some ks ->
  k ∈ ks <-> ~ In k App.reserved /\ exists n, In (Some n) cats /\ App.upper n = k.
Proof.
  unfold App.load_valid_zone_keys. intros H.
  apply (f_equal (default ∅)) in H. cbn [default from_option Datatypes.id] in H. subst ks.
  rewrite elem_of_list_to_set, list_elem_of_In, in_flat_map. split.
  - intros ([n|] & Hin & Hk); [|destruct Hk].
    destruct (existsb (String.eqb (App.upper n)) App.reserved) eqn:E; [destruct Hk|].
    destruct Hk as [<-|[]]. split.
    + intros Hr. apply not_true_iff_false in E. apply E, existsb_exists.
      exists (App.upper n). split; [exact Hr|apply String.eqb_refl].
    + exists n. auto.
  - intros (Hr & n & Hin & <-). exists (Some n). split; [exact Hin|].
    destruct (existsb (String.eqb (App.upper n)) App.reserved) eqn:E; [|left; reflexivity].
    apply existsb_exists in E as (r & Hr' & Hq). apply String.eqb_eq in Hq. subst r.
    contradiction.
Qed.

(** X11: the zone keys loaded from a config whose "categories" field is
    present are exactly the upper-cased names of the categories that
    have a name, minus the two reserved whole-foot names. *)
Theorem load_valid_zone_keys_spec (cats : list (option string)) :
  exists ks, App.load_valid_zone_keys (Some (Some cats)) = Some ks
  /\ forall k, k ∈ ks <-> ~ In k App.reserved /\ exists n, In (Some n) cats /\ App.upper n = k.
Proof.
  eexists. split; [reflexivity|]. intros k. by apply load_keys_elem.
Qed.

Lemma existsb_eqb_In (k : string) (zs : list string) :
  existsb (String.eqb k) zs = true <-> In k zs.
Proof.
  rewrite existsb_exists. split.
  - intros (x & Hx & Hq). apply String.eqb_eq in Hq. by subst.
  - intros H. exists k. split; [exact H|apply String.eqb_refl].
Qed.

Lemma map_zones_fold (valid : gset string) (areas : list string) (zs0 un0 : list string) :
  NoDup zs0 ->
  let '(zs, unknown) := fold_left (fun '(zs, unknown) v =>
      let k := App.upper v in
      if bool_decide (k ∈ valid)
      then (if existsb (String.eqb k) zs then (zs, unknown) else (app zs [k], unknown))
      else (zs, app unknown [v])) areas (zs0, un0) in
  NoDup zs
  /\ (forall k, In k zs <-> In k zs0 \/ (k ∈ valid /\ exists v, In v areas /\ App.upper v = k))
  /\ unknown = app un0 (List.filter (fun v => negb (bool_decide (App.upper v ∈ valid))) areas).
Proof.
  revert zs0 un0. induction areas as [|v areas IH]; intros zs0 un0 Hnd; cbn [fold_left].
  - split; [exact Hnd|]. split; [|by rewrite app_nil_r].
    intros k. split; [by left|]. intros [H|(_ & v & [] & _)]. exact H.
  - cbv zeta. destruct (bool_decide (App.upper v ∈ valid)) eqn:Hv.
    + apply bool_decide_eq_true in Hv.
      destruct (existsb (String.eqb (App.upper v)) zs0) eqn:Hex.
      * specialize (IH zs0 un0 Hnd). destruct (fold_left _ areas _) as [zs unknown].
        destruct IH as (Hnd' & Hin & Hun). split; [exact Hnd'|]. split.
        -- intros k. rewrite Hin. split.
           ++ intros [H|(Hk & w & Hw & Hwk)]; [by left|right; split; [exact Hk|exists w; split; [first [exact Hw|right; exact Hw]|exact Hwk]]].
           ++ intros [H|(Hk & w & [->|Hw] & Hwk)]; [by left| |].
              ** left. apply existsb_eqb_In in Hex. by subst.
              ** right. split; [exact Hk|exists w; split; [first [exact Hw|right; exact Hw]|exact Hwk]].
        -- rewrite Hun. cbn. rewrite bool_decide_eq_true_2 by exact Hv. reflexivity.
      * assert (Hnd1 : NoDup (app zs0 [App.upper v])).
        { apply NoDup_app. split; [exact Hnd|]. split; [|apply NoDup_singleton].
          intros x Hx Hy. apply list_elem_of_singleton in Hy. subst x.
          apply list_elem_of_In, existsb_eqb_In in Hx. congruence. }
        specialize (IH _ un0 Hnd1). destruct (fold_left _ areas _) as [zs unknown].
        destruct IH as (Hnd' & Hin & Hun). split; [exact Hnd'|]. split.
        -- intros k. rewrite Hin, in_app_iff. cbn [In]. split.
           ++ intros [[H|[<-|[]]]|(Hk & w & Hw & Hwk)];
                [by left|right; split; [exact Hv|exists v; split; [left; reflexivity|reflexivity]]|right; split; [exact Hk|exists w; split; [first [exact Hw|right; exact Hw]|exact Hwk]]].
           ++ intros [H|(Hk & w & [->|Hw] & Hwk)]; [by left; left|left; right; left; exact Hwk|].
              right. split; [exact Hk|exists w; split; [first [exact Hw|right; exact Hw]|exact Hwk]].
        -- rewrite Hun. cbn. rewrite bool_decide_eq_true_2 by exact Hv. reflexivity.
    + specialize (IH zs0 (app un0 [v]) Hnd). destruct (fold_left _ areas _) as [zs unknown].
      destruct IH as (Hnd' & Hin & Hun). split; [exact Hnd'|]. split.
      * intros k. rewrite Hin. split.
        -- intros [H|(Hk & w & Hw & Hwk)]; [by left|right; split; [exact Hk|exists w; split; [first [exact Hw|right; exact Hw]|exact Hwk]]].
        -- intros [H|(Hk & w & [->|Hw] & Hwk)]; [by left| |right; split; [exact Hk|exists w; split; [first [exact Hw|right; exact Hw]|exact Hwk]]].
           apply bool_decide_eq_false in Hv. subst k. contradiction.
      * rewrite Hun. cbn. rewrite Hv. cbn. by rewrite <- app_assoc.
Qed.

(** X12: mapping the submitted area values keeps each valid upper-cased
    value once (no duplicates) and nothing else, and collects the values
    whose upper-cased form is not a valid key, in order. *)
Theorem map_zones_spec (valid : gset string) (areas : list string) :
  let '(zs, unknown) := App.map_zones valid areas in
  NoDup zs
  /\ (forall k, In k zs <-> k ∈ valid /\ exists v, In v areas /\ App.upper v = k)
  /\ unknown = List.filter (fun v => negb (bool_decide (App.upper v ∈ valid))) areas.
Proof.
  unfold App.map_zones.
  pose proof (map_zones_fold valid areas [] [] (NoDup_nil_2)) as H.
  destruct (fold_left _ areas _) as [zs unknown].
  destruct H as (Hnd & Hin & Hun). split; [exact Hnd|]. split; [|exact Hun].
  intros k. rewrite Hin. split; [intros [[]|H]; exact H|intros H; by right].
Qed.

Lemma route_success_facts (e : App.env) (areas : list string) (foot size : option string)
    (out : string) (zs : list string) :
  App.generate_slippers_route e areas foot size = App.SuccessResp out zs ->
  exists f valid,
    foot = Some f /\ (f = "left" \/ f = "right")%string /\ App.foot_keys e f = Some valid
    /\ size <> None /\ size <> Some ""%string
    /\ zs = fst (App.map_zones valid areas) /\ zs <> []
    /\ out = ("sole_with_spikes_" ++ f ++ ".ply")%string
    /\ App.exists_before e (input_stl_for f) = true
    /\ App.run_script e (app ["python"; "generate_slippers.py"; "--foot"; f; "--input";
                              input_stl_for f; "--output"; out] zs) = App.ScriptOk
    /\ App.exists_after e out = true.
Proof.
  unfold App.generate_slippers_route, App.foot_keys.
  destruct (App.keys_left e) as [kl|]; [|discriminate].
  destruct (App.keys_right e) as [kr|]; [|discriminate].
  destruct (negb (nonempty areas)); [discriminate|].
  destruct foot as [f|]; [|discriminate].
  assert (Hf : (f = "left" \/ f = "right")%string \/ (String.eqb f "left" || String.eqb f "right")%bool = false).
  { destruct (String.eqb_spec f "left"); [left; left; assumption|].
    destruct (String.eqb_spec f "right"); [left; right; assumption|right; reflexivity]. }
  destruct Hf as [[-> | ->]|Hf]; [| |rewrite Hf; discriminate].
  - replace (lower "left") with "left"%string by reflexivity. cbn -[App.map_zones].
    destruct size as [[|ch sz]|]; try discriminate.
    destruct (App.map_zones kl areas) as [zs' un] eqn:Em.
    destruct (nonempty zs') eqn:Hz; [|discriminate]. cbn [negb].
    destruct (App.exists_before e _) eqn:Hb; [|discriminate].
    destruct (App.run_script e _) eqn:Hr; try discriminate.
    destruct (App.exists_after e _) eqn:Ha; [|discriminate]. intros [= <- <-].
    exists "left"%string, kl. repeat split; try discriminate; auto.
    + by rewrite Em.
    + intros ->. discriminate Hz.
  - replace (lower "right") with "right"%string by reflexivity. cbn -[App.map_zones].
    destruct size as [[|ch sz]|]; try discriminate.
    destruct (App.map_zones kr areas) as [zs' un] eqn:Em.
    destruct (nonempty zs') eqn:Hz; [|discriminate]. cbn [negb].
    destruct (App.exists_before e _) eqn:Hb; [|discriminate].
    destruct (App.run_script e _) eqn:Hr; try discriminate.
    destruct (App.exists_after e _) eqn:Ha; [|discriminate]. intros [= <- <-].
    exists "right"%string, kr. repeat split; try discriminate; auto.
    + by rewrite Em.
    + intros ->. discriminate Hz.
Qed.

(** X13: a successful response of the route means the form named a
    valid foot and a size, the zones handed to the script are the
    de-duplicated valid keys of that foot's config (at least one), the
    input STL existed, the script ran successfully on exactly this
    command line, and the PLY file it was told to write exists. *)
Theorem route_success (e : App.env) (areas : list string) (foot size : option string)
    (out : string) (zs : list string) :
  App.generate_slippers_route e areas foot size = App.SuccessResp out zs ->
  exists f valid,
    foot = Some f /\ (f = "left" \/ f = "right")%string /\ App.foot_keys e f = Some valid
    /\ size <> None /\ size <> Some ""%string
    /\ zs = fst (App.map_zones valid areas) /\ zs <> []
    /\ out = ("sole_with_spikes_" ++ f ++ ".ply")%string
    /\ App.exists_before e (input_stl_for f) = true
    /\ App.run_script e (app ["python"; "generate_slippers.py"; "--foot"; f; "--input";
                              input_stl_for f; "--output"; out] zs) = App.ScriptOk
    /\ App.exists_after e out = true.
Proof. apply route_success_facts. Qed.

Lemma route_codes_facts (e : App.env) (areas : list string) (foot size : option string)
    (code : Z) (msg : string) :
  App.generate_slippers_route e areas foot size = App.ErrorResp code msg ->
  (code = 400 \/ code = 404 \/ code = 500)%Z
  /\ (code <> 500%Z -> forall rs ea,
        App.generate_slippers_route
          (App.mk_env (App.keys_left e) (App.keys_right e) (App.exists_before e) rs ea)
          areas foot size = App.ErrorResp code msg).
Proof.
  intros H. split.
  - revert H. unfold App.generate_slippers_route.
    repeat (match goal with |- context [match ?x with _ => _ end] => destruct x eqn:? end);
      intros H; first [discriminate H | injection H as <- _; auto].
  - intros Hc rs ea. revert H. unfold App.generate_slippers_route.
    cbn [App.keys_left App.keys_right App.exists_before App.run_script App.exists_after].
    repeat (match goal with |- context [match ?x with _ => _ end] => destruct x eqn:? end);
      intros H; first [exact H | congruence].
Qed.

(** X14: the route only answers 400, 404 or 500 on errors, and its 400
    and 404 answers (form validation, unknown zones, missing input STL)
    are given before the script runs: they do not depend on how the
    script behaves or on the files it leaves. *)
Theorem route_error_codes (e : App.env) (areas : list string) (foot size : option string)
    (code : Z) (msg : string) :
  App.generate_slippers_route e areas foot size = App.ErrorResp code msg ->
  (code = 400 \/ code = 404 \/ code = 500)%Z
  /\ (code <> 500%Z -> forall rs ea,
        App.generate_slippers_route
          (App.mk_env (App.keys_left e) (App.keys_right e) (App.exists_before e) rs ea)
          areas foot size = App.ErrorResp code msg).
Proof. apply route_codes_facts. Qed.

(** X15: the front end and the script agree on zone names: when the
    route succeeds and the keys it validated against were loaded from the
    same annotation file the script reads, the script's run on the zones
    the route passed reports no unknown zone and does not stop with the
    fatal no-match error. This is for requested areas and category names
    in 7-bit ASCII: beyond ASCII, Python's [upper] and [lower] are not
    inverse on letters (a category named 'Straße' gives the key 'STRASSE',
    which the script lowers to the unknown 'strasse'). *)
Theorem route_zones_known (cp : list point2 -> point2 -> bool) (c : coco) (m : mesh)
    (e : App.env) (areas : list string) (foot size : option string)
    (out : string) (zs : list string) :
  forallb is_ascii7 areas = true ->
  forallb (fun cat => is_ascii7 (cat_name cat)) (categories c) = true ->
  App.generate_slippers_route e areas foot size = App.SuccessResp out zs ->
  (forall f, foot = Some f -> App.foot_keys e f = App.load_valid_zone_keys (App.config_of c)) ->
  exists cm st, run cp c m zs = Finished [] cm st.
Proof.
  intros _ _ Hr Hkeys.
  destruct (route_success_facts e areas foot size out zs Hr)
    as (f & valid & Hfoot & _ & Hvk & _ & _ & Hzs & Hne & _).
  rewrite (Hkeys f Hfoot) in Hvk.
  set (zn := zone_name_to_ids_of (categories c)).
  assert (Hknown : forall z, In z zs -> exists l, zn !! lower z = Some l /\ l <> []).
  { intros z Hz.
    pose proof (map_zones_fold valid areas [] [] NoDup_nil_2) as Hm.
    unfold App.map_zones in Hzs. destruct (fold_left _ areas _) as [zs' un].
    cbn [fst] in Hzs. subst zs'. destruct Hm as (_ & Hin & _).
    apply Hin in Hz as [[]|(Hv & _)].
    unfold App.config_of in Hvk. apply (load_keys_elem _ _ z Hvk) in Hv as (_ & n & Hn & Hnz).
    apply in_map_iff in Hn as (cat & [= <-] & Hcat).
    rewrite <- Hnz, lower_upper.
    unfold zn, zone_name_to_ids_of. rewrite zone_name_to_ids_fold, lookup_empty.
    assert (Hid : In (cat_id cat) (ids_named (categories c) (lower (cat_name cat)))).
    { unfold ids_named. apply in_map. apply filter_In. split; [exact Hcat|apply String.eqb_refl]. }
    destruct (ids_named _ _) as [|i l]; [destruct Hid|]. eexists. split; [reflexivity|discriminate]. }
  unfold run. rewrite resolve_selected_spec. fold zn.
  assert (Hw : forall l, (forall z, In z l -> exists ids, zn !! lower z = Some ids /\ ids <> []) ->
               List.filter (fun z => negb (is_known zn z)) (map lower l) = []).
  { induction l as [|z l IH]; intros Hk; [reflexivity|].
    cbn [map List.filter]. destruct (Hk z (or_introl eq_refl)) as (ids & Hl & _).
    unfold is_known at 1. rewrite Hl. cbn [negb].
    apply IH. intros y Hy. apply Hk. right. exact Hy. }
  rewrite (Hw zs Hknown).
  destruct zs as [|z zs]; [contradiction|].
  destruct (Hknown z (or_introl eq_refl)) as (l & Hl & Hlne).
  cbn [map concat]. rewrite Hl. cbn [default].
  destruct l as [|x l]; [contradiction|]. cbn [app nonempty negb andb].
  eexists _, _. reflexivity.
Qed.

Lemma find_app_r {A} (f : A -> bool) (l : list A) (a : A) :
  List.find f (l ++ [a]) = match List.find f l with Some x => Some x | None => if f a then Some a else None end.
Proof. induction l as [|x l IH]; cbn; [reflexivity|]. destruct (f x); [reflexivity|exact IH]. Qed.

Lemma load_fold_none (anns : list annotation) :
  fold_left (fun (acc : option (gmap Harness.pyval (list point2))) ann =>
      match acc with
      | None => None
      | Some polys =>
          match segmentation ann with
          | flat :: _ =>
              match reshape_pairs flat with
              | Some pts => Some (<[Harness.PyInt (category_id ann) := pts]> polys)
              | None => None
              end
          | [] => None
          end
      end) anns None = None.
Proof. induction anns as [|a anns IH]; cbn; [reflexivity|exact IH]. Qed.

Lemma load_fold (anns : list annotation) (p0 : gmap Harness.pyval (list point2)) :
  match fold_left (fun (acc : option (gmap Harness.pyval (list point2))) ann =>
      match acc with
      | None => None
      | Some polys =>
          match segmentation ann with
          | flat :: _ =>
              match reshape_pairs flat with
              | Some pts => Some (<[Harness.PyInt (category_id ann) := pts]> polys)
              | None => None
              end
          | [] => None
          end
      end) anns (Some p0) with
  | None => exists a, In a anns /\ first_seg a = None
  | Some p =>
      (forall a, In a anns -> first_seg a <> None)
      /\ (forall k, p !! Harness.PyInt k =
           match List.find (fun a => Z.eqb (category_id a) k) (rev anns) with
           | Some a => first_seg a
           | None => p0 !! Harness.PyInt k
           end)
      /\ (forall s, p !! Harness.PyStr s = p0 !! Harness.PyStr s)
  end.
Proof.
  revert p0. induction anns as [|a anns IH]; intros p0; cbn [fold_left].
  - split; [intros ? []|]. split; [reflexivity|reflexivity].
  - destruct (first_seg a) as [pts|] eqn:Ha.
    + assert (Hstep : (match segmentation a with
                | flat :: _ => match reshape_pairs flat with
                               | Some pts => Some (<[Harness.PyInt (category_id a) := pts]> p0)
                               | None => None end
                | [] => None end) = Some (<[Harness.PyInt (category_id a) := pts]> p0)).
      { unfold first_seg in Ha. destruct (segmentation a) as [|flat ?]; [discriminate|].
        by rewrite Ha. }
      rewrite Hstep. specialize (IH (<[Harness.PyInt (category_id a) := pts]> p0)).
      destruct (fold_left _ anns _) as [p|].
      * destruct IH as (Hok & Hint & Hstr). split; [|split].
        -- intros b [<-|Hb]; [congruence|by apply Hok].
        -- intros k. rewrite Hint. cbn [rev]. rewrite find_app_r.
           destruct (List.find _ (rev anns)); [reflexivity|].
           destruct (Z.eqb_spec (category_id a) k) as [<-|Hne].
           ++ by rewrite lookup_insert_eq.
           ++ rewrite lookup_insert_ne by congruence. reflexivity.
        -- intros s'. rewrite Hstr. by rewrite lookup_insert_ne.
      * destruct IH as (b & Hb & Hbn). exists b. split; [right; exact Hb|exact Hbn].
    + assert (Hstep : (match segmentation a with
                | flat :: _ => match reshape_pairs flat with
                               | Some pts => Some (<[Harness.PyInt (category_id a) := pts]> p0)
                               | None => None end
                | [] => None end) = None).
      { unfold first_seg in Ha. destruct (segmentation a) as [|flat ?]; [reflexivity|].
        by rewrite Ha. }
      rewrite Hstep, load_fold_none. exists a. split; [left; reflexivity|exact Ha].
Qed.

(** X16: the test harness's annotation loader fails (raises) exactly
    when some annotation has no segmentation or an odd coordinate count;
    otherwise it keys each polygon by its integer category id, a later
    annotation of a category replacing an earlier one, so each id maps to
    the polygon of its last annotation, and no string key is present. *)
Theorem load_coco_annotations_spec (c : coco) :
  match Harness.load_coco_annotations c with
  | None => exists a, In a (annotations c) /\ first_seg a = None
  | Some (polys, w, h) =>
      (forall a, In a (annotations c) -> first_seg a <> None)
      /\ w = img_width c /\ h = img_height c
      /\ (forall k, polys !! Harness.PyInt k =
           match List.find (fun a => Z.eqb (category_id a) k) (rev (annotations c)) with
           | Some a => first_seg a
           | None => None
           end)
      /\ (forall s, polys !! Harness.PyStr s = None)
  end.
Proof.
  unfold Harness.load_coco_annotations.
  pose proof (load_fold (annotations c) ∅) as H.
  destruct (fold_left _ _ _) as [p|]; [|exact H].
  destruct H as (Hok & Hint & Hstr). split; [exact Hok|].
  split; [reflexivity|]. split; [reflexivity|]. split.
  - intros k. rewrite Hint. destruct (List.find _ _); [reflexivity|apply lookup_empty].
  - intros s'. rewrite Hstr. apply lookup_empty.
Qed.

(** X17: for the same image point, the test harness casts its ray 10 mm
    lower in x and in y than the pipeline does: [ray_casting] has no
    10 mm margin, while [map_2d_to_3d] adds one; both start 10 mm above
    the top of the mesh. *)
Theorem harness_origin_offset (m : mesh) (c : coco) (pt : point2) :
  let o := Harness.ray_origin m (img_width c) (img_height c) pt in
  let xy := map_2d_to_3d (make_mapper m c) (fst pt) (snd pt) in
  px o == fst xy - 10 /\ py o == snd xy - 10 /\ pz o == pz (bounds_max m) + 10.
Proof.
  cbv zeta. unfold Harness.ray_origin, map_2d_to_3d, make_mapper. cbn.
  split; [|split]; ring.
Qed.

(** X18: the harness's success rate is a percentage: each ray reports
    at most one location, so it lies between 0 and 100. *)
Theorem harness_success_rate_bounds (first_hit : point3 -> point3 -> option point3)
    (m : mesh) (points_2d : list point2) (w h : Q) :
  0 <= Harness.ray_casting_success_rate first_hit m points_2d w h <= 100.
Proof.
  unfold Harness.ray_casting_success_rate. cbv zeta.
  set (origins := map (Harness.ray_origin m w h) points_2d).
  assert (Hle : forall os : list point3,
    (length (flat_map (fun o => match first_hit o ((0, 0, -1)%Q) with
                                | Some l => [l] | None => [] end) os) <= length os)%nat).
  { induction os as [|o os IH]; cbn [flat_map length]; [lia|].
    rewrite length_app. destruct (first_hit o _); cbn; lia. }
  specialize (Hle origins).
  destruct (0 <? length origins)%nat eqn:E; [|split; lra].
  apply Nat.ltb_lt in E.
  set (k := length (flat_map _ origins)) in *.
  set (n := length origins) in *.
  assert (Hk : 0 <= inject_Z (Z.of_nat k)) by (change 0 with (inject_Z 0); rewrite <- Zle_Qle; lia).
  assert (Hkn : inject_Z (Z.of_nat k) <= inject_Z (Z.of_nat n)) by (rewrite <- Zle_Qle; lia).
  assert (Hn : 0 < inject_Z (Z.of_nat n)) by (change 0 with (inject_Z 0); rewrite <- Zlt_Qlt; lia).
  assert (Hq0 : 0 <= inject_Z (Z.of_nat k) / inject_Z (Z.of_nat n))
    by (apply Qle_shift_div_l; [exact Hn|lra]).
  assert (Hq1 : inject_Z (Z.of_nat k) / inject_Z (Z.of_nat n) <= 1)
    by (apply Qle_shift_div_r; [exact Hn|lra]).
  revert Hq0 Hq1. generalize (inject_Z (Z.of_nat k) / inject_Z (Z.of_nat n)).
  intros q Hq0 Hq1. split; lra.
Qed.

(** X19: the harness's [main] never reaches the ray casting: the
    polygons are keyed by integer category ids, so
    [polygons.get('heart', ...)] is always empty, and [main] either
    raises while loading or prints "No heart zone found in
    annotations." and returns. *)
Theorem test_main_no_ray_casting (first_hit : point3 -> point3 -> option point3)
    (m : mesh) (c : coco) :
  Harness.test_main first_hit m c = Harness.TestCrash
  \/ Harness.test_main first_hit m c = Harness.TestNoHeart.
Proof.
  unfold Harness.test_main.
  pose proof (load_fold (annotations c) ∅) as H.
  unfold Harness.load_coco_annotations.
  destruct (fold_left _ _ _) as [p|]; [|by left].
  destruct H as (_ & _ & Hstr). rewrite Hstr, lookup_empty. by right.
Qed.

(** ** Instances of the further properties with hypotheses *)

(** X5 on the heart run: one bump, counted once in the per-zone counts. *)
Lemma run_bookkeeping_witness :
  exists w cm st, run box_contains heart_doc flat_slab ["HEART"] = Finished w cm st
    /\ spike_count st = 1%nat /\ zone_total (filter_zone_bumps (zone_bumps st)) = 1%nat.
Proof.
  destruct (run box_contains heart_doc flat_slab ["HEART"]) as [msg|w cm st] eqn:E;
    [vm_compute in E; discriminate|].
  assert (Hs : spike_count st = 1%nat).
  { vm_compute in E. injection E as _ _ <-. reflexivity. }
  destruct (run_bookkeeping box_contains heart_doc flat_slab ["HEART"] w cm st E)
    as (_ & _ & _ & _ & H5).
  exists w, cm, st. split; [reflexivity|]. split; [exact Hs|]. rewrite H5. exact Hs.
Defined.

(** X6 on the heart run. *)
Lemma placement_accuracy_bounds_witness :
  exists w cm st, run box_contains heart_doc flat_slab ["HEART"] = Finished w cm st
    /\ 0 <= placement_accuracy box_contains cm st <= 100.
Proof.
  destruct (run box_contains heart_doc flat_slab ["HEART"]) as [msg|w cm st] eqn:E;
    [vm_compute in E; discriminate|].
  exists w, cm, st. split; [reflexivity|].
  exact (placement_accuracy_bounds box_contains heart_doc flat_slab ["HEART"] w cm st E).
Defined.

(** X13 on a form asking for "heart" and the unknown "spleen" on the
    left foot: the script ran on the command line with HEART only. *)
Lemma route_success_witness :
  App.run_script sample_env
    (app ["python"; "generate_slippers.py"; "--foot"; "left"; "--input";
          "Shoe_Sole_UK_8_Left.stl"; "--output"; "sole_with_spikes_left.ply"] ["HEART"])
  = App.ScriptOk.
Proof.
  assert (E : App.generate_slippers_route sample_env ["heart"; "spleen"] (Some "left") (Some "8")
              = App.SuccessResp "sole_with_spikes_left.ply" ["HEART"])
    by (vm_compute; reflexivity).
  destruct (route_success sample_env ["heart"; "spleen"] (Some "left") (Some "8") _ _ E)
    as (f & valid & Hf & _ & _ & _ & _ & _ & _ & Hout & _ & Hrun & _).
  injection Hf as <-. subst. exact Hrun.
Defined.

(** X14 on a form with only the unknown area "spleen": the 400 answer
    is the same with a script that cannot even be started. *)
Lemma route_error_codes_witness :
  App.generate_slippers_route broken_script_env ["spleen"] (Some "left") (Some "8")
  = App.ErrorResp 400 "None of the selected areas could be mapped to known zones. Unrecognized values: spleen.".
Proof.
  assert (E : App.generate_slippers_route sample_env ["spleen"] (Some "left") (Some "8")
              = App.ErrorResp 400 "None of the selected areas could be mapped to known zones. Unrecognized values: spleen.")
    by (vm_compute; reflexivity).
  destruct (route_error_codes sample_env ["spleen"] (Some "left") (Some "8") _ _ E) as (_ & H).
  exact (H ltac:(discriminate) (fun _ => App.ScriptNotFound "python") (fun _ => false)).
Defined.

(** X15 with [heart_doc] as both the zone config and the annotation
    document: the zones the route passes resolve without warning. *)
Lemma route_zones_known_witness :
  App.generate_slippers_route sample_env ["heart"; "spleen"] (Some "left") (Some "8")
  = App.SuccessResp "sole_with_spikes_left.ply" ["HEART"]
  /\ exists cm st, run box_contains heart_doc flat_slab ["HEART"] = Finished [] cm st.
Proof.
  assert (E : App.generate_slippers_route sample_env ["heart"; "spleen"] (Some "left") (Some "8")
              = App.SuccessResp "sole_with_spikes_left.ply" ["HEART"])
    by (vm_compute; reflexivity).
  split; [exact E|].
  apply (route_zones_known box_contains heart_doc flat_slab sample_env ["heart"; "spleen"]
           (Some "left") (Some "8") _ _ ltac:(reflexivity) ltac:(reflexivity) E).
  intros f Hf. injection Hf as <-. reflexivity.
Defined.

(** X1 on the heart run: ["heart"] and ["HEART"] give the same run. *)
Lemma run_upper_zones_witness :
  forallb is_ascii7 ["heart"] = true
  /\ run box_contains heart_doc flat_slab (map App.upper ["heart"])
     = run box_contains heart_doc flat_slab ["heart"].
Proof.
  split; [reflexivity|].
  apply (run_upper_zones box_contains heart_doc flat_slab ["heart"]). reflexivity.
Defined.
